(** * connectify_backend: the chat server of [server.js]

    A shallow embedding of the Express / Socket.IO / Mongoose server of
    [src/server.js].  The two Mongoose collections, the set of connected
    sockets, the clock and everything the server emits, logs or answers
    are fields of one [World]; every handler of the source is a
    computation in a state-and-exception monad over that world, written
    in the order of the JavaScript statements. *)

From Stdlib Require Import String Ascii List ZArith Lia Bool.
From Stdlib Require Import DecimalString.
Import ListNotations.
Local Open Scope string_scope.
Local Open Scope list_scope.
Local Open Scope Z_scope.

(* ===================================================================== *)
(** ** JavaScript values the server manipulates *)
(* ===================================================================== *)

Module Js.

(** A string is falsy exactly when it is empty. *)
Definition truthy (s : string) : bool := negb (String.eqb s "").

(** [v || d] where [v] is a string-valued property that may be absent
    ([undefined] or [null]) and [d] is a string. *)
Definition or_string (v : option string) (d : string) : string :=
  match v with
  | Some s => if truthy s then s else d
  | None => d
  end.

(** [v || null]. *)
Definition or_null (v : option string) : option string :=
  match v with
  | Some s => if truthy s then Some s else None
  | None => None
  end.

(** [String(n)] for an integral number [n]: its decimal numeral. *)
Definition number_to_string (n : Z) : string :=
  NilZero.string_of_int (Z.to_int n).



End Js.

(* ===================================================================== *)
(** ** [path.extname] of the Node runtime (POSIX flavour)

    The server calls [path.extname(file.originalname)].  The function
    belongs to Node, not to this repository; it is transcribed here from
    the runtime, one loop iteration per character, scanning from the end
    of the string. *)
(* ===================================================================== *)

Module Path.

Record Scan := mkScan {
  startDot : option nat;      (* -1 is [None] *)
  startPart : nat;
  endPos : option nat;        (* -1 is [None] *)
  matchedSlash : bool;
  preDotState : Z
}.

Definition scan0 : Scan := mkScan None 0%nat None true 0.

Definition is_slash (c : ascii) : bool := Ascii.eqb c "/"%char.
Definition is_dot (c : ascii) : bool := Ascii.eqb c "."%char.

(** The body of the [for] loop at index [i]; [inr] is [break]. *)
Definition scan_step (i : nat) (c : ascii) (st : Scan) : Scan + Scan :=
  if is_slash c then
    if negb (matchedSlash st)
    then inr (mkScan (startDot st) (S i) (endPos st) (matchedSlash st) (preDotState st))
    else inl st
  else
    let st1 :=
      match endPos st with
      | None => mkScan (startDot st) (startPart st) (Some (S i)) false (preDotState st)
      | Some _ => st
      end in
    if is_dot c then
      match startDot st1 with
      | None => inl (mkScan (Some i) (startPart st1) (endPos st1) (matchedSlash st1) (preDotState st1))
      | Some _ =>
          if negb (preDotState st1 =? 1)
          then inl (mkScan (startDot st1) (startPart st1) (endPos st1) (matchedSlash st1) 1)
          else inl st1
      end
    else
      match startDot st1 with
      | Some _ => inl (mkScan (startDot st1) (startPart st1) (endPos st1) (matchedSlash st1) (-1))
      | None => inl st1
      end.

(** [for (let i = n - 1; i >= 0; --i)]. *)
Fixpoint scan_loop (path : string) (n : nat) (st : Scan) : Scan :=
  match n with
  | O => st
  | S i =>
      match String.get i path with
      | None => st
      | Some c =>
          match scan_step i c st with
          | inl st' => scan_loop path i st'
          | inr st' => st'
          end
      end
  end.

Definition extname (path : string) : string :=
  let st := scan_loop path (String.length path) scan0 in
  match startDot st, endPos st with
  | Some sd, Some e =>
      if ((preDotState st =? 0)
          || ((preDotState st =? 1) && Nat.eqb sd (e - 1) && Nat.eqb sd (startPart st + 1)))%bool
      then ""
      else String.substring sd (e - sd) path
  | _, _ => ""
  end.

End Path.

(* ===================================================================== *)
(** ** [basename] of busboy, the multipart parser under multer

    Multer keeps of the file name a part announces only its last
    portion: busboy cuts the name after its last slash or backslash and
    turns the portions [.] and [..] into the empty name.  The function
    belongs to busboy, not to this repository; it is transcribed here,
    scanning from the end of the string. *)
(* ===================================================================== *)

Module Busboy.

Definition is_separator (c : ascii) : bool :=
  (Ascii.eqb c "/"%char || Ascii.eqb c "\"%char)%bool.

(** [path === '..' || path === '.' ? '' : path]. *)
Definition drop_dots (path : string) : string :=
  if (String.eqb path ".." || String.eqb path ".")%bool then "" else path.

(** [for (let i = n - 1; i >= 0; --i)]: the portion after the separator
    found first, or the whole name. *)
Fixpoint basename_loop (path : string) (n : nat) : string :=
  match n with
  | O => path
  | S i =>
      match String.get i path with
      | None => path
      | Some c =>
          if is_separator c
          then String.substring (S i) (String.length path - S i) path
          else basename_loop path i
      end
  end.

Definition basename (path : string) : string :=
  drop_dots (basename_loop path (String.length path)).

End Busboy.

(* ===================================================================== *)
(** ** Documents, payloads and effects *)
(* ===================================================================== *)

Definition SocketId := string.
Definition ObjectId := Z.

(** [messageSchema]. *)
Record Message := mkMessage {
  m_id : ObjectId;
  sender : string;
  content : string;
  fileUrl : option string;
  fileType : option string;
  timestamp : Z
}.

(** [userSchema]; an unset [socketId] is [None]. *)
Record User := mkUser {
  u_id : ObjectId;
  username : string;
  socketId : option SocketId;
  joinedAt : Z
}.

(** The payload of [registerUser]. *)
Record RegisterData := mkRegisterData {
  reg_username : string
}.

(** The payload of [sendMessage]: every property may be absent. *)
Record MessageData := mkMessageData {
  data_content : option string;
  data_fileUrl : option string;
  data_fileType : option string
}.

(** A file part of a multipart request as the client sent it, the
    [file] object multer hands to the storage callbacks, and [req.file]
    as multer leaves it. *)
Record FilePart := mkFilePart {
  part_filename : string;
  part_mimetype : string
}.

Record MulterFile := mkMulterFile {
  originalname : string;
  file_mimetype : string
}.

Record ReqFile := mkReqFile {
  filename : string;
  mimetype : string
}.

(** What an emitted event carries. *)
Inductive Payload :=
| PUsernames (names : list string)
| PMessage (m : Message)
| PArray (ms : list Message)
| PError (message : string).

(** A JSON response body. *)
Inductive Json :=
| JMessages (ms : list Message)
| JStrings (names : list string)
| JError (error : string)
| JUpload (file_url file_type : string).

(** Observable effects, in the order they happen.  [Emit] lists the
    sockets the event is delivered to: every connected socket for
    [io.emit], the one socket for [socket.emit]. *)
Inductive Output :=
| Emit (recipients : list SocketId) (event : string) (data : Payload)
| ConsoleLog (line : string)
| ConsoleError (err : string)
| Respond (status : Z) (body : Json)
| UnhandledRejection (err : string).

Record World := mkWorld {
  users : list User;               (* collection [users], natural order *)
  messages : list Message;         (* collection [messages], natural order *)
  sockets : list SocketId;         (* sockets connected to the hub *)
  clock : Z;                       (* what [Date.now()] reads *)
  next_oid : ObjectId;             (* the next fresh document id *)
  faults : list (option string);   (* outcomes of the coming store calls *)
  out : list Output                (* effects so far *)
}.

Definition set_users (us : list User) (w : World) : World :=
  mkWorld us (messages w) (sockets w) (clock w) (next_oid w) (faults w) (out w).
Definition set_messages (ms : list Message) (w : World) : World :=
  mkWorld (users w) ms (sockets w) (clock w) (next_oid w) (faults w) (out w).
Definition set_sockets (ss : list SocketId) (w : World) : World :=
  mkWorld (users w) (messages w) ss (clock w) (next_oid w) (faults w) (out w).
Definition set_clock (t : Z) (w : World) : World :=
  mkWorld (users w) (messages w) (sockets w) t (next_oid w) (faults w) (out w).
Definition set_next_oid (n : ObjectId) (w : World) : World :=
  mkWorld (users w) (messages w) (sockets w) (clock w) n (faults w) (out w).
Definition set_faults (fs : list (option string)) (w : World) : World :=
  mkWorld (users w) (messages w) (sockets w) (clock w) (next_oid w) fs (out w).
Definition push_out (o : Output) (w : World) : World :=
  mkWorld (users w) (messages w) (sockets w) (clock w) (next_oid w) (faults w) (out w ++ [o]).

(* ===================================================================== *)
(** ** The handler monad: state that survives a thrown error *)
(* ===================================================================== *)

Inductive Res (A : Type) :=
| Ok (a : A)
| Throw (err : string).
Arguments Ok {A} a.
Arguments Throw {A} err.

Definition M (A : Type) : Type := World -> Res A * World.

Definition ret {A} (a : A) : M A := fun w => (Ok a, w).

Definition bind {A B} (m : M A) (k : A -> M B) : M B :=
  fun w =>
    match m w with
    | (Ok a, w') => k a w'
    | (Throw e, w') => (Throw e, w')
    end.

(** [try { body } catch (err) { handler }]. *)
Definition try_catch {A} (body : M A) (handler : string -> M A) : M A :=
  fun w =>
    match body w with
    | (Ok a, w') => (Ok a, w')
    | (Throw e, w') => handler e w'
    end.

Declare Scope js_scope.
Delimit Scope js_scope with js.
Notation "x <- m ;; k" := (bind m (fun x => k))
  (at level 61, m at next level, right associativity) : js_scope.
Notation "m ;; k" := (bind m (fun _ => k))
  (at level 61, right associativity) : js_scope.
Local Open Scope js_scope.

Definition effect (o : Output) : M unit := fun w => (Ok tt, push_out o w).

Definition console_log (line : string) : M unit := effect (ConsoleLog line).
Definition console_error (err : string) : M unit := effect (ConsoleError err).

(** [io.emit(event, data)]: to every connected socket. *)
Definition io_emit (event : string) (data : Payload) : M unit :=
  fun w => (Ok tt, push_out (Emit (sockets w) event data) w).

(** [socket.emit(event, data)]: to this socket only. *)
Definition socket_emit (socket_id : SocketId) (event : string) (data : Payload) : M unit :=
  effect (Emit [socket_id] event data).

(** [res.status(status).json(body)]; [res.json(body)] has status 200. *)
Definition res_json (status : Z) (body : Json) : M unit := effect (Respond status body).

Definition Date_now : M Z := fun w => (Ok (clock w), w).

(** A fresh [ObjectId]. *)
Definition fresh_oid : M ObjectId :=
  fun w => (Ok (next_oid w), set_next_oid (next_oid w + 1) w).

(** An awaited store call: it takes the next outcome of the store, and
    either rejects with that error or performs the operation. *)
Definition store_call {A} (op : M A) : M A :=
  fun w =>
    match faults w with
    | Some e :: fs => (Throw e, set_faults fs w)
    | None :: fs => op (set_faults fs w)
    | [] => op w
    end.

(* ===================================================================== *)
(** ** The two models, [User] and [Message] *)
(* ===================================================================== *)

(** Replaces the first element satisfying [p], as the [findOneAnd...]
    operations do. *)
Fixpoint update_first {A} (p : A -> bool) (f : A -> A) (l : list A) : list A :=
  match l with
  | [] => []
  | x :: t => if p x then f x :: t else x :: update_first p f t
  end.

Definition has_username (name : string) (u : User) : bool :=
  String.eqb (username u) name.

Definition has_socket (socket_id : SocketId) (u : User) : bool :=
  match socketId u with
  | Some s => String.eqb s socket_id
  | None => false
  end.

(** [{ socketId: { $exists: true } }]. *)
Definition socketId_exists (u : User) : bool :=
  match socketId u with
  | Some _ => true
  | None => false
  end.

Definition with_socketId (s : option SocketId) (u : User) : User :=
  mkUser (u_id u) (username u) s (joinedAt u).

Module UserModel.

(** [User.findOneAndUpdate({ username }, { socketId }, { new: true, upsert: true })]. *)
Definition findOneAndUpdate_upsert (name : string) (socket_id : SocketId) : M User :=
  store_call (fun w =>
    match find (has_username name) (users w) with
    | Some u =>
        (Ok (with_socketId (Some socket_id) u),
         set_users (update_first (has_username name) (with_socketId (Some socket_id)) (users w)) w)
    | None =>
        let u := mkUser (next_oid w) name (Some socket_id) (clock w) in
        (Ok u, set_next_oid (next_oid w + 1) (set_users (users w ++ [u]) w))
    end).

(** [User.find({ socketId: { $exists: true } }).select("username -_id")]:
    the projection keeps the [username] of each document. *)
Definition find_online : M (list string) :=
  store_call (fun w => (Ok (map username (filter socketId_exists (users w))), w)).

(** [User.findOne({ socketId })]. *)
Definition findOne_socket (socket_id : SocketId) : M (option User) :=
  store_call (fun w => (Ok (find (has_socket socket_id) (users w)), w)).

(** [User.findOneAndUpdate({ socketId }, { $unset: { socketId: 1 } })]:
    returns the document as it was, or [null]. *)
Definition findOneAndUpdate_unset (socket_id : SocketId) : M (option User) :=
  store_call (fun w =>
    (Ok (find (has_socket socket_id) (users w)),
     set_users (update_first (has_socket socket_id) (with_socketId None) (users w)) w)).

End UserModel.

Module MessageModel.

(** [Message.find()]. *)
Definition find_all : M (list Message) :=
  store_call (fun w => (Ok (messages w), w)).

(** [new Message({ sender, content, fileUrl, fileType })]: the document
    gets its id and the default [timestamp] when it is built. *)
Definition new (sender_ content_ : string) (fileUrl_ fileType_ : option string) : M Message :=
  id <- fresh_oid ;;
  now <- Date_now ;;
  ret (mkMessage id sender_ content_ fileUrl_ fileType_ now).

(** [newMessage.save()]. *)
Definition save (m : Message) : M unit :=
  store_call (fun w => (Ok tt, set_messages (messages w ++ [m]) w)).

(** [Message.deleteMany()]. *)
Definition deleteMany : M unit :=
  store_call (fun w => (Ok tt, set_messages [] w)).

End MessageModel.

(* ===================================================================== *)
(** ** HTTP handlers *)
(* ===================================================================== *)

(** [app.get("/messages", ...)]. *)
Definition get_messages : M unit :=
  try_catch
    (msgs <- MessageModel.find_all ;;
     res_json 200 (JMessages msgs))
    (fun err => res_json 500 (JError err)).

(** [app.get("/online-users", ...)]. *)
Definition get_online_users : M unit :=
  try_catch
    (onlineUsers <- UserModel.find_online ;;
     res_json 200 (JStrings onlineUsers))
    (fun err => res_json 500 (JError err)).

(** The [filename] callback of [multer.diskStorage]. *)
Definition storage_filename (file : MulterFile) : M string :=
  now <- Date_now ;;
  ret (Js.number_to_string now ++ Path.extname (originalname file))%string.

(** [upload.single("file")]: multer names the file by the basename of
    what the part announces, attaches no file when that name is empty,
    and otherwise stores it under the generated name and sets
    [req.file]. *)
Definition upload_single (part : option FilePart) : M (option ReqFile) :=
  match part with
  | None => ret None
  | Some p =>
      let file := mkMulterFile (Busboy.basename (part_filename p)) (part_mimetype p) in
      if Js.truthy (originalname file) then
        name <- storage_filename file ;;
        ret (Some (mkReqFile name (file_mimetype file)))
      else ret None
  end.

(** [app.post("/upload", upload.single("file"), ...)]. *)
Definition post_upload (part : option FilePart) : M unit :=
  req_file <- upload_single part ;;
  match req_file with
  | None => res_json 400 (JError "No file uploaded")
  | Some f => res_json 200 (JUpload ("/uploads/" ++ filename f)%string (mimetype f))
  end.

(* ===================================================================== *)
(** ** Socket handlers *)
(* ===================================================================== *)

(** [socket.on("registerUser", ...)]. *)
Definition registerUser (socket_id : SocketId) (data : RegisterData) : M unit :=
  try_catch
    (user <- UserModel.findOneAndUpdate_upsert (reg_username data) socket_id ;;
     console_log (reg_username data ++ " is connected")%string ;;
     onlineUsers <- UserModel.find_online ;;
     io_emit "userConnected" (PUsernames onlineUsers))
    (fun err => console_error err).

(** [socket.on("sendMessage", ...)]. *)
Definition sendMessage (socket_id : SocketId) (data : MessageData) : M unit :=
  try_catch
    (sender_ <- UserModel.findOne_socket socket_id ;;
     match sender_ with
     | None => socket_emit socket_id "error" (PError "Unauthorized user")
     | Some u =>
         newMessage <- MessageModel.new (username u)
                         (Js.or_string (data_content data) "")
                         (Js.or_null (data_fileUrl data))
                         (Js.or_null (data_fileType data)) ;;
         MessageModel.save newMessage ;;
         io_emit "receiveMessage" (PMessage newMessage)
     end)
    (fun err => console_error err).

(** [socket.on("clearChat", ...)]: no [try] around the store call. *)
Definition clearChat (socket_id : SocketId) : M unit :=
  MessageModel.deleteMany ;;
  io_emit "receiveMessage" (PArray []).

(** [socket.on("disconnect", ...)]. *)
Definition disconnect (socket_id : SocketId) : M unit :=
  try_catch
    (user <- UserModel.findOneAndUpdate_unset socket_id ;;
     console_log (Js.or_string (option_map username user) "A user" ++ " disconnected")%string ;;
     onlineUsers <- UserModel.find_online ;;
     io_emit "userDisconnected" (PUsernames onlineUsers))
    (fun err => console_error err).

(* ===================================================================== *)
(** ** The event loop *)
(* ===================================================================== *)

Inductive Event :=
| Connection (socket_id : SocketId)
| RegisterUser (socket_id : SocketId) (data : RegisterData)
| SendMessage (socket_id : SocketId) (data : MessageData)
| ClearChat (socket_id : SocketId)
| Disconnect (socket_id : SocketId)
| GetMessages
| GetOnlineUsers
| PostUpload (part : option FilePart)
| Elapse (ms : N).

(** Runs an [async] handler to completion; a rejection nobody catches
    is left to the runtime. *)
Definition run_handler (h : M unit) (w : World) : World :=
  match h w with
  | (Ok _, w') => w'
  | (Throw e, w') => push_out (UnhandledRejection e) w'
  end.

Definition remove_socket (socket_id : SocketId) (l : list SocketId) : list SocketId :=
  filter (fun s => negb (String.eqb s socket_id)) l.

(** One event, handled to completion before the next one (sequential
    execution).  A socket has left the hub when its [disconnect]
    listener runs. *)
Definition step (e : Event) (w : World) : World :=
  match e with
  | Connection s =>
      run_handler (console_log "A user connected") (set_sockets (sockets w ++ [s]) w)
  | RegisterUser s data => run_handler (registerUser s data) w
  | SendMessage s data => run_handler (sendMessage s data) w
  | ClearChat s => run_handler (clearChat s) w
  | Disconnect s => run_handler (disconnect s) (set_sockets (remove_socket s (sockets w)) w)
  | GetMessages => run_handler get_messages w
  | GetOnlineUsers => run_handler get_online_users w
  | PostUpload part => run_handler (post_upload part) w
  | Elapse ms => set_clock (clock w + Z.of_N ms) w
  end.

Definition run (tr : list Event) (w : World) : World := fold_left (fun w e => step e w) tr w.

(** The empty database, nobody connected, a store that does not fail. *)
Definition init_world : World := mkWorld [] [] [] 0 0 [] [].

(* ===================================================================== *)
(** ** Presence, in the words of the specification

    "The usernames whose most recent registration has not been followed
    by a disconnect of the connection that made that registration",
    read off the sequence of events alone. *)
(* ===================================================================== *)

(** The connection that registers [name] in event [e], if [e] does. *)
Definition registers (name : string) (e : Event) : option SocketId :=
  match e with
  | RegisterUser s data => if String.eqb (reg_username data) name then Some s else None
  | _ => None
  end.

Definition is_disconnect_of (s : SocketId) (e : Event) : bool :=
  match e with
  | Disconnect s' => String.eqb s' s
  | _ => false
  end.

(** The most recent registration of [name]: the connection that made
    it, and the events that followed it. *)
Fixpoint last_registration (tr : list Event) (name : string) : option (SocketId * list Event) :=
  match tr with
  | [] => None
  | e :: rest =>
      match last_registration rest name with
      | Some r => Some r
      | None =>
          match registers name e with
          | Some s => Some (s, rest)
          | None => None
          end
      end
  end.

Definition spec_online (tr : list Event) (name : string) : bool :=
  match last_registration tr name with
  | Some (s, after) => negb (existsb (is_disconnect_of s) after)
  | None => false
  end.

(** No connection registers two different usernames. *)
Definition one_name_per_connection (tr : list Event) : Prop :=
  forall s d1 d2,
    In (RegisterUser s d1) tr -> In (RegisterUser s d2) tr ->
    reg_username d1 = reg_username d2.

(** The trace holds [registerUser] and [disconnect] events only. *)
Definition presence_event (e : Event) : bool :=
  match e with
  | RegisterUser _ _ | Disconnect _ => true
  | _ => false
  end.

(** Nobody is online and usernames are unique, as the unique index of
    [userSchema] has it. *)
Definition unique_usernames (w : World) : Prop := NoDup (map username (users w)).

Definition all_offline (w : World) : Prop :=
  forall u, In u (users w) -> socketId u = None.

(** The connection an event arrives on. *)
Definition event_socket (e : Event) : option SocketId :=
  match e with
  | Connection s | RegisterUser s _ | SendMessage s _ | ClearChat s | Disconnect s => Some s
  | _ => None
  end.

Definition is_clearChat (e : Event) : bool :=
  match e with
  | ClearChat _ => true
  | _ => false
  end.

(** The usernames [User.find({ socketId: { $exists: true } })] yields. *)
Definition online_usernames (w : World) : list string :=
  map username (filter socketId_exists (users w)).

(** The connection id stored for [name] in the collection, if any. *)
Definition user_socket (us : list User) (name : string) : option SocketId :=
  match find (has_username name) us with
  | Some u => socketId u
  | None => None
  end.

(** The connection the specification has [name] online on. *)
Definition spec_socket (tr : list Event) (name : string) : option SocketId :=
  match last_registration tr name with
  | Some (s, after) => if existsb (is_disconnect_of s) after then None else Some s
  | None => None
  end.

(** What the upsert of [registerUser] does to the collection. *)
Definition upsert_users (name : string) (s : SocketId) (w : World) : list User :=
  match find (has_username name) (users w) with
  | Some _ => update_first (has_username name) (with_socketId (Some s)) (users w)
  | None => users w ++ [mkUser (next_oid w) name (Some s) (clock w)]
  end.

(** The next [n] store calls succeed. *)
Definition store_answers (n : nat) (w : World) : bool :=
  forallb (fun f => match f with None => true | Some _ => false end)
          (firstn n (faults w)).

(** [GET /online-users], asked in world [w], answers 200 with a list
    that holds [name]. *)
Definition reported_online (w : World) (name : string) : Prop :=
  exists names,
    out (step GetOnlineUsers w) = out w ++ [Respond 200 (JStrings names)] /\
    In name names.

(** Socket [s] is among the recipients of the emission [o] of [event]
    with [data]. *)
Definition delivers (s : SocketId) (event : string) (data : Payload) (o : Output) : Prop :=
  match o with
  | Emit recipients event' data' => In s recipients /\ event' = event /\ data' = data
  | _ => False
  end.

(** An event that neither arrives on connection [c] nor registers
    [name]. *)
Definition leaves_alone (c : SocketId) (name : string) (e : Event) : bool :=
  match event_socket e with
  | Some s => negb (String.eqb s c)
  | None => true
  end &&
  match registers name e with
  | Some _ => false
  | None => true
  end.

(** What never changes in a user record: its id, its name and the
    instant it was created. *)
Definition user_identity (u : User) : ObjectId * string * Z :=
  (u_id u, username u, joinedAt u).

(** [l1] is an initial segment of [l2]. *)
Definition prefix_of {A} (l1 l2 : list A) : Prop := exists rest, l2 = l1 ++ rest.

(** The characters of a string, and the test that [c] is none of them. *)
Fixpoint chars (s : string) : list ascii :=
  match s with
  | EmptyString => []
  | String c s' => c :: chars s'
  end.

Definition lacks (c : ascii) (s : string) : bool :=
  forallb (fun c' => negb (Ascii.eqb c' c)) (chars s).





(* ===================================================================== *)
(** * Properties *)
(* ===================================================================== *)

Ltac unfold_handlers :=
  unfold step, run_handler, registerUser, sendMessage, clearChat, disconnect,
    get_messages, get_online_users, post_upload, upload_single, storage_filename,
    UserModel.findOneAndUpdate_upsert, UserModel.find_online,
    UserModel.findOne_socket, UserModel.findOneAndUpdate_unset,
    MessageModel.find_all, MessageModel.new, MessageModel.save,
    MessageModel.deleteMany,
    try_catch, bind, ret, store_call, io_emit, socket_emit, console_log,
    console_error, res_json, effect, Date_now, fresh_oid in *.

Ltac healthy w H :=
  destruct w as [w_users w_messages w_sockets w_clock w_oid w_faults w_out];
  cbn in H; subst w_faults; unfold_handlers; cbn.

Section Lists.

Lemma update_first_usernames p s l :
  map username (update_first p (with_socketId s) l) = map username l.
Proof.
  induction l as [|x t IH]; cbn; [reflexivity|].
  destruct (p x); cbn; [reflexivity | now rewrite IH].
Qed.

Lemma find_username_none name l :
  find (has_username name) l = None <-> ~ In name (map username l).
Proof.
  induction l as [|x t IH]; cbn.
  - tauto.
  - unfold has_username at 1. destruct (String.eqb_spec (username x) name) as [E|E].
    + split; [discriminate | intros H; exfalso; apply H; now left].
    + rewrite IH. tauto.
Qed.

Lemma find_username_some name l u :
  find (has_username name) l = Some u -> In u l /\ username u = name.
Proof.
  intros H. apply find_some in H. destruct H as [Hin Hn]. split; [assumption|].
  unfold has_username in Hn. now apply String.eqb_eq.
Qed.

Lemma user_socket_cons x t name :
  user_socket (x :: t) name =
  if String.eqb (username x) name then socketId x else user_socket t name.
Proof.
  unfold user_socket; cbn. unfold has_username at 1.
  now destruct (String.eqb (username x) name).
Qed.

Lemma user_socket_absent l name :
  ~ In name (map username l) -> user_socket l name = None.
Proof.
  intros H. unfold user_socket. apply find_username_none in H. now rewrite H.
Qed.

Lemma user_socket_app_new l u name :
  ~ In (username u) (map username l) ->
  user_socket (l ++ [u]) name =
  if String.eqb name (username u) then socketId u else user_socket l name.
Proof.
  induction l as [|x t IH]; intros Hn.
  - rewrite app_nil_l, user_socket_cons. rewrite (String.eqb_sym name).
    destruct (String.eqb (username u) name); reflexivity.
  - cbn [app]. rewrite !user_socket_cons.
    destruct (String.eqb_spec (username x) name) as [E|E].
    + destruct (String.eqb_spec name (username u)) as [E'|E']; [|reflexivity].
      exfalso. apply Hn. cbn. left. congruence.
    + apply IH. intros Hin. apply Hn. cbn. now right.
Qed.

Lemma user_socket_update_name l name s n :
  In name (map username l) ->
  user_socket (update_first (has_username name) (with_socketId (Some s)) l) n =
  if String.eqb n name then Some s else user_socket l n.
Proof.
  induction l as [|x t IH]; intros Hin; [destruct Hin|].
  cbn [update_first]. unfold has_username at 1.
  destruct (String.eqb_spec (username x) name) as [E|E].
  - rewrite !user_socket_cons. cbn [username socketId with_socketId].
    rewrite E, (String.eqb_sym n). now destruct (String.eqb name n).
  - rewrite !user_socket_cons.
    destruct (String.eqb_spec (username x) n) as [E'|E'].
    + destruct (String.eqb_spec n name); [congruence | reflexivity].
    + apply IH. cbn in Hin. destruct Hin; [contradiction | assumption].
Qed.

(** Unsetting the socket of the first holder of [s], when a single
    username holds [s]. *)
Lemma user_socket_unset l s n :
  NoDup (map username l) ->
  (forall n1 n2, user_socket l n1 = Some s -> user_socket l n2 = Some s -> n1 = n2) ->
  user_socket (update_first (has_socket s) (with_socketId None) l) n =
  match user_socket l n with
  | Some s' => if String.eqb s' s then None else Some s'
  | None => None
  end.
Proof.
  induction l as [|x t IH]; intros Hnd Huniq; [reflexivity|].
  cbn [map] in Hnd. inversion Hnd as [|? ? Hnotin Hnd']; subst.
  cbn [update_first]. unfold has_socket at 1.
  destruct (socketId x) as [sx|] eqn:Esx.
  - destruct (String.eqb_spec sx s) as [E|E].
    + subst sx. rewrite !user_socket_cons. cbn [username socketId with_socketId].
      destruct (String.eqb_spec (username x) n) as [En|En].
      * rewrite Esx, String.eqb_refl. reflexivity.
      * destruct (user_socket t n) as [s'|] eqn:Et; [|reflexivity].
        destruct (String.eqb_spec s' s) as [E'|E']; [|reflexivity].
        subst s'. exfalso. apply En. apply Huniq.
        -- rewrite user_socket_cons, String.eqb_refl. exact Esx.
        -- rewrite user_socket_cons.
           destruct (String.eqb_spec (username x) n); [contradiction | exact Et].
    + rewrite !user_socket_cons.
      destruct (String.eqb_spec (username x) n) as [En|En].
      * rewrite Esx. destruct (String.eqb_spec sx s); [contradiction | reflexivity].
      * apply IH; [assumption|].
        intros n1 n2 H1 H2. apply Huniq; rewrite user_socket_cons.
        -- destruct (String.eqb_spec (username x) n1) as [E1|E1]; [|exact H1].
           rewrite user_socket_absent in H1 by (rewrite <- E1; exact Hnotin).
           discriminate.
        -- destruct (String.eqb_spec (username x) n2) as [E2|E2]; [|exact H2].
           rewrite user_socket_absent in H2 by (rewrite <- E2; exact Hnotin).
           discriminate.
  - rewrite !user_socket_cons.
    destruct (String.eqb_spec (username x) n) as [En|En].
    + rewrite Esx. reflexivity.
    + apply IH; [assumption|].
      intros n1 n2 H1 H2. apply Huniq; rewrite user_socket_cons.
      * destruct (String.eqb_spec (username x) n1) as [E1|E1]; [|exact H1].
        rewrite user_socket_absent in H1 by (rewrite <- E1; exact Hnotin).
        discriminate.
      * destruct (String.eqb_spec (username x) n2) as [E2|E2]; [|exact H2].
        rewrite user_socket_absent in H2 by (rewrite <- E2; exact Hnotin).
        discriminate.
Qed.

(** With unique usernames, the online list is read off [user_socket]. *)
Lemma in_online_user_socket l n :
  NoDup (map username l) ->
  In n (map username (filter socketId_exists l)) <-> user_socket l n <> None.
Proof.
  induction l as [|x t IH]; intros Hnd.
  - cbn. unfold user_socket; cbn. split; [tauto | congruence].
  - cbn [map] in Hnd. inversion Hnd as [|? ? Hnotin Hnd']; subst.
    rewrite user_socket_cons. cbn [filter].
    destruct (String.eqb_spec (username x) n) as [En|En].
    + unfold socketId_exists at 1. destruct (socketId x) as [sx|] eqn:Esx.
      * cbn. split; [congruence | intros _; now left].
      * split; [|congruence]. intros Hin. exfalso. apply Hnotin.
        rewrite En. apply in_map_iff in Hin. destruct Hin as [u [Hu Hin]].
        apply filter_In in Hin. apply in_map_iff. exists u. tauto.
    + rewrite <- (IH Hnd'). unfold socketId_exists at 1.
      destruct (socketId x); cbn; [|tauto].
      split; [intros [H|H]; [contradiction | assumption] | intros H; now right].
Qed.

Lemma online_NoDup l :
  NoDup (map username l) -> NoDup (map username (filter socketId_exists l)).
Proof.
  induction l as [|x t IH]; intros Hnd; cbn; [constructor|].
  cbn [map] in Hnd. inversion Hnd as [|? ? Hnotin Hnd']; subst.
  destruct (socketId_exists x); cbn; [|now apply IH].
  constructor; [|now apply IH].
  intros Hin. apply Hnotin. apply in_map_iff in Hin. destruct Hin as [u [Hu Hin]].
  apply filter_In in Hin. apply in_map_iff. exists u. tauto.
Qed.

End Lists.

Section Steps.

(** What one event does to the user collection while the store is
    healthy. *)
Lemma step_users_healthy e w :
  faults w = [] ->
  faults (step e w) = [] /\
  users (step e w) =
    match e with
    | RegisterUser s data => upsert_users (reg_username data) s w
    | Disconnect s => update_first (has_socket s) (with_socketId None) (users w)
    | _ => users w
    end.
Proof.
  intros H. destruct e; healthy w H; unfold upsert_users; cbn;
    try (split; reflexivity).
  - destruct (find (has_username (reg_username data)) w_users); cbn; split; reflexivity.
  - destruct (find (has_socket socket_id) w_users); cbn; split; reflexivity.
  - destruct part as [p|]; cbn; [destruct (Js.truthy _)|]; cbn; split; reflexivity.
Qed.

Lemma run_snoc tr e w : run (tr ++ [e]) w = step e (run tr w).
Proof. unfold run. now rewrite fold_left_app. Qed.

Lemma run_cons e tr w : run (e :: tr) w = run tr (step e w).
Proof. reflexivity. Qed.

Lemma run_faults_healthy tr w : faults w = [] -> faults (run tr w) = [].
Proof.
  revert w. induction tr as [|e tr IH]; intros w H; [exact H|].
  rewrite run_cons. apply IH. now apply step_users_healthy.
Qed.

Lemma upsert_usernames_NoDup name s w :
  NoDup (map username (users w)) -> NoDup (map username (upsert_users name s w)).
Proof.
  intros Hnd. unfold upsert_users.
  destruct (find (has_username name) (users w)) eqn:E.
  - now rewrite update_first_usernames.
  - rewrite map_app. cbn. apply find_username_none in E.
    apply NoDup_app_remove_l with (l := []). cbn.
    apply NoDup_Add with (a := name) (l := map username (users w)).
    + clear. induction (map username (users w)); cbn; constructor; assumption.
    + split; assumption.
Qed.

Lemma user_socket_upsert name s w n :
  user_socket (upsert_users name s w) n =
  if String.eqb n name then Some s else user_socket (users w) n.
Proof.
  unfold upsert_users. destruct (find (has_username name) (users w)) eqn:E.
  - apply user_socket_update_name. apply find_username_some in E.
    destruct E as [Hin Hn]. subst name. now apply in_map.
  - apply find_username_none in E. now rewrite user_socket_app_new.
Qed.

(** The unique index on [username] holds in every reachable world. *)
Lemma step_unique_usernames e w :
  faults w = [] -> unique_usernames w -> unique_usernames (step e w).
Proof.
  intros H Hnd. unfold unique_usernames in *.
  destruct (step_users_healthy e w H) as [_ Hu]. rewrite Hu.
  destruct e; try assumption.
  - now apply upsert_usernames_NoDup.
  - now rewrite update_first_usernames.
Qed.

End Steps.

Section PresenceSpec.

Lemma last_registration_snoc tr e name :
  last_registration (tr ++ [e]) name =
  match registers name e with
  | Some s => Some (s, [])
  | None =>
      match last_registration tr name with
      | Some (s, after) => Some (s, after ++ [e])
      | None => None
      end
  end.
Proof.
  induction tr as [|x t IH]; cbn.
  - destruct (registers name e); reflexivity.
  - rewrite IH. destruct (registers name e); [reflexivity|].
    destruct (last_registration t name) as [[s after]|]; [reflexivity|].
    destruct (registers name x); reflexivity.
Qed.

Lemma spec_socket_snoc tr e name :
  spec_socket (tr ++ [e]) name =
  match registers name e with
  | Some s => Some s
  | None =>
      match spec_socket tr name with
      | Some s => if is_disconnect_of s e then None else Some s
      | None => None
      end
  end.
Proof.
  unfold spec_socket. rewrite last_registration_snoc.
  destruct (registers name e); [reflexivity|].
  destruct (last_registration tr name) as [[s after]|]; [|reflexivity].
  rewrite existsb_app. cbn. rewrite orb_false_r.
  destruct (existsb (is_disconnect_of s) after); cbn; [reflexivity|].
  destruct (is_disconnect_of s e); reflexivity.
Qed.

Lemma spec_online_socket tr name :
  spec_online tr name = true <-> spec_socket tr name <> None.
Proof.
  unfold spec_online, spec_socket.
  destruct (last_registration tr name) as [[s after]|]; [|split; congruence].
  destruct (existsb (is_disconnect_of s) after); cbn; split; congruence.
Qed.

Lemma last_registration_in tr name s after :
  last_registration tr name = Some (s, after) ->
  exists d, In (RegisterUser s d) tr /\ reg_username d = name.
Proof.
  revert s after. induction tr as [|x t IH]; intros s after H; cbn in H; [discriminate|].
  destruct (last_registration t name) as [[s' after']|] eqn:E.
  - inversion H; subst. destruct (IH _ _ eq_refl) as [d [Hin Hd]].
    exists d. split; [now right | assumption].
  - destruct x; cbn in H; try discriminate.
    destruct (String.eqb_spec (reg_username data) name) as [En|En]; [|discriminate].
    inversion H; subst. exists data. split; [now left | reflexivity].
Qed.

Lemma spec_socket_in tr name s :
  spec_socket tr name = Some s ->
  exists d, In (RegisterUser s d) tr /\ reg_username d = name.
Proof.
  unfold spec_socket. intros H.
  destruct (last_registration tr name) as [[s' after]|] eqn:E; [|discriminate].
  destruct (existsb (is_disconnect_of s') after); [discriminate|].
  inversion H; subst. eapply last_registration_in; eassumption.
Qed.

(** The collection and the specification agree on who is connected
    where, after every prefix of a one-name-per-connection trace. *)
Lemma presence_invariant tr w0 :
  faults w0 = [] -> unique_usernames w0 -> all_offline w0 ->
  one_name_per_connection tr ->
  unique_usernames (run tr w0) /\
  forall name, user_socket (users (run tr w0)) name = spec_socket tr name.
Proof.
  intros Hf Hnd Hoff. induction tr as [|e tr IH] using rev_ind; intros Hone.
  - split; [exact Hnd|]. intros name. cbn. unfold user_socket.
    destruct (find (has_username name) (users w0)) eqn:E; [|reflexivity].
    apply find_username_some in E. apply Hoff. tauto.
  - assert (Hone' : one_name_per_connection tr).
    { intros s d1 d2 H1 H2. apply (Hone s); apply in_or_app; now left. }
    destruct (IH Hone') as [Hnd' Hagree]. clear IH.
    rewrite run_snoc.
    pose proof (run_faults_healthy tr w0 Hf) as Hf'.
    split; [now apply step_unique_usernames|].
    intros name. destruct (step_users_healthy e (run tr w0) Hf') as [_ Hu].
    rewrite Hu, spec_socket_snoc. clear Hu.
    destruct e; cbn [registers is_disconnect_of]; rewrite <- ?Hagree;
      try (destruct (user_socket (users (run tr w0)) name); reflexivity).
    + rewrite user_socket_upsert, (String.eqb_sym name).
      destruct (String.eqb (reg_username data) name); [reflexivity|].
      destruct (user_socket (users (run tr w0)) name); reflexivity.
    + rewrite user_socket_unset; [| exact Hnd' |].
      * destruct (user_socket (users (run tr w0)) name) as [s'|]; [|reflexivity].
        rewrite (String.eqb_sym s'). reflexivity.
      * intros n1 n2 H1 H2. rewrite Hagree in H1, H2.
        apply spec_socket_in in H1, H2.
        destruct H1 as [d1 [Hin1 Hd1]], H2 as [d2 [Hin2 Hd2]].
        rewrite <- Hd1, <- Hd2. apply (Hone' socket_id); assumption.
Qed.

End PresenceSpec.

Section OnlineUsers.

Lemma get_online_users_healthy w :
  store_answers 1 w = true ->
  out (step GetOnlineUsers w) = out w ++ [Respond 200 (JStrings (online_usernames w))].
Proof.
  intros H. destruct w as [w_users w_messages w_sockets w_clock w_oid w_faults w_out].
  unfold store_answers in H. cbn in H. unfold_handlers.
  destruct w_faults as [|[e|] fs]; cbn in *; [reflexivity | discriminate | reflexivity].
Qed.

Lemma healthy_store_answers n w : faults w = [] -> store_answers n w = true.
Proof. intros H. unfold store_answers. rewrite H. now destruct n. Qed.

Lemma reported_online_iff w name :
  store_answers 1 w = true ->
  reported_online w name <-> In name (online_usernames w).
Proof.
  intros H. unfold reported_online. rewrite (get_online_users_healthy w H). split.
  - intros [names [E Hin]]. apply app_inv_head in E. now inversion E; subst.
  - intros Hin. exists (online_usernames w). split; [reflexivity | assumption].
Qed.

Lemma in_online_usernames w name :
  In name (online_usernames w) <->
  exists u, In u (users w) /\ username u = name /\ socketId u <> None.
Proof.
  unfold online_usernames. rewrite in_map_iff. split.
  - intros [u [Hn Hin]]. apply filter_In in Hin. destruct Hin as [Hin Hs].
    exists u. repeat split; try assumption.
    unfold socketId_exists in Hs. destruct (socketId u); congruence.
  - intros [u [Hin [Hn Hs]]]. exists u. split; [assumption|].
    apply filter_In. split; [assumption|].
    unfold socketId_exists. destruct (socketId u); congruence.
Qed.

End OnlineUsers.

(** C1, as stated, fails: when one connection registers two usernames
    and then disconnects, [GET /online-users] still lists the second
    one, although the connection that registered it has disconnected. *)
Lemma online_users_two_names_counterexample :
  ~ (forall tr : list Event,
        forallb presence_event tr = true ->
        forall name, reported_online (run tr init_world) name <-> spec_online tr name = true).
Proof.
  intros H.
  specialize (H [RegisterUser "c1" (mkRegisterData "alice");
                 RegisterUser "c1" (mkRegisterData "bob");
                 Disconnect "c1"] eq_refl "bob").
  assert (Hrep : reported_online
                   (run [RegisterUser "c1" (mkRegisterData "alice");
                         RegisterUser "c1" (mkRegisterData "bob");
                         Disconnect "c1"] init_world) "bob").
  { exists ["bob"]. split; [vm_compute; reflexivity | now left]. }
  apply H in Hrep. vm_compute in Hrep. discriminate.
Qed.

(** C1 (amended): for every sequential run in which no connection
    registers two different usernames, started with a healthy store and
    nobody online, [GET /online-users] answers with a duplicate-free
    list that holds exactly the usernames whose most recent registration
    has not been followed by a disconnect of the connection that made
    it; and, in every world, a username is in that list exactly when a
    user record of that name has its [socketId] present. *)
Theorem online_users_match_presence tr w0 :
  faults w0 = [] -> unique_usernames w0 -> all_offline w0 ->
  one_name_per_connection tr ->
  exists names,
    out (step GetOnlineUsers (run tr w0)) =
      out (run tr w0) ++ [Respond 200 (JStrings names)] /\
    NoDup names /\
    (forall name, In name names <-> spec_online tr name = true) /\
    (forall name, In name names <->
       exists u, In u (users (run tr w0)) /\ username u = name /\ socketId u <> None).
Proof.
  intros Hf Hnd Hoff Hone.
  destruct (presence_invariant tr w0 Hf Hnd Hoff Hone) as [Hnd' Hagree].
  exists (online_usernames (run tr w0)). split; [|split; [|split]].
  - apply get_online_users_healthy, healthy_store_answers, run_faults_healthy, Hf.
  - now apply online_NoDup.
  - intros name. unfold online_usernames.
    rewrite (in_online_user_socket _ _ Hnd'), Hagree. symmetry. apply spec_online_socket.
  - apply in_online_usernames.
Qed.

Lemma online_users_match_presence_witness :
  exists names,
    out (step GetOnlineUsers
           (run [Connection "c1"; RegisterUser "c1" (mkRegisterData "alice");
                 Connection "c2"; RegisterUser "c2" (mkRegisterData "bob");
                 Disconnect "c1"] init_world)) =
      out (run [Connection "c1"; RegisterUser "c1" (mkRegisterData "alice");
                Connection "c2"; RegisterUser "c2" (mkRegisterData "bob");
                Disconnect "c1"] init_world) ++ [Respond 200 (JStrings names)] /\
    names = ["bob"].
Proof.
  destruct (online_users_match_presence
              [Connection "c1"; RegisterUser "c1" (mkRegisterData "alice");
               Connection "c2"; RegisterUser "c2" (mkRegisterData "bob");
               Disconnect "c1"] init_world) as [names [Hout _]].
  - reflexivity.
  - constructor.
  - intros u [].
  - intros s d1 d2 H1 H2. cbn in H1, H2.
    repeat (destruct H1 as [H1|H1]; try discriminate; try contradiction);
    repeat (destruct H2 as [H2|H2]; try discriminate; try contradiction);
    inversion H1; inversion H2; subst; try reflexivity; discriminate.
  - exists names. split; [exact Hout|].
    vm_compute in Hout. now inversion Hout.
Defined.

Section SendMessage.

Lemma find_socket_none sid l :
  (forall u, In u l -> socketId u <> Some sid) -> find (has_socket sid) l = None.
Proof.
  intros H. destruct (find (has_socket sid) l) as [u|] eqn:E; [|reflexivity].
  apply find_some in E. destruct E as [Hin Hs]. exfalso. apply (H u Hin).
  unfold has_socket in Hs. destruct (socketId u) as [s|]; [|discriminate].
  apply String.eqb_eq in Hs. now subst.
Qed.

Lemma find_socket_some sid l u :
  find (has_socket sid) l = Some u -> In u l /\ socketId u = Some sid.
Proof.
  intros E. apply find_some in E. destruct E as [Hin Hs]. split; [assumption|].
  unfold has_socket in Hs. destruct (socketId u) as [s|]; [|discriminate].
  apply String.eqb_eq in Hs. now subst.
Qed.

(** The message [sendMessage] builds for sender [u] in world [w]. *)
Lemma sendMessage_accepted sid data w u :
  find (has_socket sid) (users w) = Some u ->
  store_answers 2 w = true ->
  let m := mkMessage (next_oid w) (username u)
             (Js.or_string (data_content data) "")
             (Js.or_null (data_fileUrl data))
             (Js.or_null (data_fileType data))
             (clock w) in
  messages (step (SendMessage sid data) w) = messages w ++ [m] /\
  out (step (SendMessage sid data) w) =
    out w ++ [Emit (sockets w) "receiveMessage" (PMessage m)].
Proof.
  intros Hfind Hs. destruct w as [w_users w_messages w_sockets w_clock w_oid w_faults w_out].
  unfold store_answers in Hs. cbn in Hfind, Hs |- *. unfold_handlers.
  destruct w_faults as [|[e|] [|[e'|] fs]]; cbn in *; try discriminate;
    rewrite Hfind; cbn; split; reflexivity.
Qed.

End SendMessage.

(** C2: a [sendMessage] on a connection whose socket id is the
    [socketId] of no user record persists nothing, touches no user
    record and emits to nobody but that connection; when the store
    answers the lookup, its one effect is the [error] event with message
    "Unauthorized user", sent to that connection only. *)
Theorem sendMessage_unauthorized sid data w :
  (forall u, In u (users w) -> socketId u <> Some sid) ->
  messages (step (SendMessage sid data) w) = messages w /\
  length (messages (step (SendMessage sid data) w)) = length (messages w) /\
  users (step (SendMessage sid data) w) = users w /\
  (forall recipients event payload,
      In (Emit recipients event payload) (out (step (SendMessage sid data) w)) ->
      In (Emit recipients event payload) (out w) \/ recipients = [sid]) /\
  (store_answers 1 w = true ->
   out (step (SendMessage sid data) w) =
     out w ++ [Emit [sid] "error" (PError "Unauthorized user")]).
Proof.
  intros Hnone. apply find_socket_none in Hnone.
  destruct w as [w_users w_messages w_sockets w_clock w_oid w_faults w_out].
  unfold store_answers. cbn in Hnone |- *. unfold_handlers.
  destruct w_faults as [|[e|] fs]; cbn; rewrite ?Hnone; cbn;
    (split; [reflexivity | split; [reflexivity | split; [reflexivity | split]]]);
    try discriminate; try reflexivity;
    intros rs ev pl Hin; apply in_app_or in Hin;
    (destruct Hin as [Hin|[Hin|[]]]; [now left | inversion Hin; subst; now right || discriminate]).
Qed.

Lemma sendMessage_unauthorized_witness :
  out (step (SendMessage "c9" (mkMessageData (Some "hi") None None))
            (run [Connection "c1"; RegisterUser "c1" (mkRegisterData "alice");
                  Connection "c9"] init_world)) =
  out (run [Connection "c1"; RegisterUser "c1" (mkRegisterData "alice");
            Connection "c9"] init_world)
    ++ [Emit ["c9"] "error" (PError "Unauthorized user")].
Proof.
  refine (proj2 (proj2 (proj2 (proj2
    (sendMessage_unauthorized "c9" (mkMessageData (Some "hi") None None)
       (run [Connection "c1"; RegisterUser "c1" (mkRegisterData "alice");
             Connection "c9"] init_world) _)))) _).
  - vm_compute. intros u [E|[]] H. subst u. discriminate.
  - vm_compute. reflexivity.
Defined.

(** C3, as stated, fails: a payload whose [fileUrl] is present but is
    the empty string is persisted with [fileUrl] null, because the
    handler defaults with [||]. *)
Lemma sendMessage_empty_fileUrl_counterexample :
  ~ (forall sid data w u m,
        find (has_socket sid) (users w) = Some u ->
        store_answers 2 w = true ->
        messages (step (SendMessage sid data) w) = messages w ++ [m] ->
        fileUrl m = data_fileUrl data /\ fileType m = data_fileType data).
Proof.
  intros H.
  specialize (H "c1" (mkMessageData (Some "hi") (Some "") None)
                (mkWorld [mkUser 0 "alice" (Some "c1") 0] [] ["c1"] 5 1 [] [])
                (mkUser 0 "alice" (Some "c1") 0)
                (mkMessage 1 "alice" "hi" None None 5)
                eq_refl eq_refl eq_refl).
  destruct H as [H _]. cbn in H. discriminate.
Qed.

(** C3 (amended): a [sendMessage] from a connection whose socket id is
    that of a registered user, with the store answering, persists and
    broadcasts to every connected socket one and the same message: its
    sender is that user's username, its content the payload's content or
    the empty string when absent, its fileUrl and fileType the payload's
    values when present and non-empty and null when absent or empty, its
    timestamp the server's clock and its id the one the server assigned. *)
Theorem sendMessage_persists_and_broadcasts sid data w u :
  find (has_socket sid) (users w) = Some u ->
  store_answers 2 w = true ->
  exists m,
    messages (step (SendMessage sid data) w) = messages w ++ [m] /\
    out (step (SendMessage sid data) w) =
      out w ++ [Emit (sockets w) "receiveMessage" (PMessage m)] /\
    sender m = username u /\
    content m = match data_content data with Some c => c | None => "" end /\
    fileUrl m =
      match data_fileUrl data with
      | Some f => if String.eqb f "" then None else Some f
      | None => None
      end /\
    fileType m =
      match data_fileType data with
      | Some t => if String.eqb t "" then None else Some t
      | None => None
      end /\
    timestamp m = clock w /\
    m_id m = next_oid w.
Proof.
  intros Hfind Hs.
  destruct (sendMessage_accepted sid data w u Hfind Hs) as [Hm Ho].
  eexists. split; [exact Hm | split; [exact Ho|]]. cbn.
  repeat split.
  - unfold Js.or_string, Js.truthy. destruct (data_content data) as [c|]; [|reflexivity].
    destruct (String.eqb_spec c ""); cbn; congruence.
  - unfold Js.or_null, Js.truthy. destruct (data_fileUrl data) as [f|]; [|reflexivity].
    destruct (String.eqb f ""); reflexivity.
  - unfold Js.or_null, Js.truthy. destruct (data_fileType data) as [t|]; [|reflexivity].
    destruct (String.eqb t ""); reflexivity.
Qed.

Lemma sendMessage_persists_and_broadcasts_witness :
  exists m,
    messages (step (SendMessage "c1" (mkMessageData (Some "hi") None None))
                   (mkWorld [mkUser 0 "alice" (Some "c1") 0] [] ["c1"; "c2"] 5 1 [] [])) = [m] /\
    sender m = "alice" /\ content m = "hi" /\ fileUrl m = None /\ fileType m = None /\
    timestamp m = 5.
Proof.
  destruct (sendMessage_persists_and_broadcasts
              "c1" (mkMessageData (Some "hi") None None)
              (mkWorld [mkUser 0 "alice" (Some "c1") 0] [] ["c1"; "c2"] 5 1 [] [])
              (mkUser 0 "alice" (Some "c1") 0) eq_refl eq_refl)
    as [m [Hm [_ [Hs [Hc [Hu [Ht [Hts _]]]]]]]].
  exists m. repeat split; assumption.
Defined.

(** C9: a [sendMessage] from a registered connection whose payload has
    no content, no fileUrl and no fileType is not rejected: with the
    store answering, a message with content "", fileUrl null and
    fileType null is persisted and broadcast. *)
Theorem sendMessage_empty_payload sid w u :
  find (has_socket sid) (users w) = Some u ->
  store_answers 2 w = true ->
  exists m,
    messages (step (SendMessage sid (mkMessageData None None None)) w) = messages w ++ [m] /\
    out (step (SendMessage sid (mkMessageData None None None)) w) =
      out w ++ [Emit (sockets w) "receiveMessage" (PMessage m)] /\
    sender m = username u /\ content m = "" /\ fileUrl m = None /\ fileType m = None.
Proof.
  intros Hfind Hs.
  destruct (sendMessage_accepted sid (mkMessageData None None None) w u Hfind Hs) as [Hm Ho].
  eexists. split; [exact Hm | split; [exact Ho|]]. cbn. repeat split.
Qed.

Lemma sendMessage_empty_payload_witness :
  exists m,
    messages (step (SendMessage "c1" (mkMessageData None None None))
                   (mkWorld [mkUser 0 "alice" (Some "c1") 0] [] ["c1"] 5 1 [] [])) = [m] /\
    content m = "" /\ fileUrl m = None /\ fileType m = None.
Proof.
  destruct (sendMessage_empty_payload "c1"
              (mkWorld [mkUser 0 "alice" (Some "c1") 0] [] ["c1"] 5 1 [] [])
              (mkUser 0 "alice" (Some "c1") 0) eq_refl eq_refl)
    as [m [Hm [_ [_ [Hc [Hu Ht]]]]]].
  exists m. repeat split; assumption.
Defined.

(** C4: once a [clearChat] has completed, whichever connection issued
    it and whatever was stored, the message collection is empty, its one
    effect is a [receiveMessage] event carrying the empty array that
    reaches every connected socket, and [GET /messages], when the store
    answers it, responds with the empty array. *)
Theorem clearChat_empties_and_broadcasts sid w w' :
  clearChat sid w = (Ok tt, w') ->
  step (ClearChat sid) w = w' /\
  messages w' = [] /\
  out w' = out w ++ [Emit (sockets w) "receiveMessage" (PArray [])] /\
  (forall s, In s (sockets w) ->
     exists o, In o (out w') /\ delivers s "receiveMessage" (PArray []) o) /\
  (store_answers 1 w' = true ->
   out (step GetMessages w') = out w' ++ [Respond 200 (JMessages [])]).
Proof.
  intros H. destruct w as [w_users w_messages w_sockets w_clock w_oid w_faults w_out].
  unfold store_answers. unfold_handlers. cbn in *.
  destruct w_faults as [|[e|] fs]; cbn in *; try discriminate;
    inversion H; subst; clear H; cbn;
    (split; [reflexivity | split; [reflexivity | split; [reflexivity | split]]]).
  - intros s Hin. eexists. split; [apply in_or_app; right; left; reflexivity|].
    cbn. auto.
  - reflexivity.
  - intros s Hin. eexists. split; [apply in_or_app; right; left; reflexivity|].
    cbn. auto.
  - destruct fs as [|[e|] fs']; cbn; [reflexivity | discriminate | reflexivity].
Qed.

Lemma clearChat_empties_and_broadcasts_witness :
  messages (step (ClearChat "c2")
              (mkWorld [mkUser 0 "alice" (Some "c1") 0]
                       [mkMessage 1 "alice" "hi" None None 5] ["c1"; "c2"] 9 2 [] [])) = [] /\
  out (step GetMessages
         (step (ClearChat "c2")
            (mkWorld [mkUser 0 "alice" (Some "c1") 0]
                     [mkMessage 1 "alice" "hi" None None 5] ["c1"; "c2"] 9 2 [] []))) =
    [Emit ["c1"; "c2"] "receiveMessage" (PArray []); Respond 200 (JMessages [])].
Proof.
  destruct (clearChat_empties_and_broadcasts "c2"
              (mkWorld [mkUser 0 "alice" (Some "c1") 0]
                       [mkMessage 1 "alice" "hi" None None 5] ["c1"; "c2"] 9 2 [] [])
              (mkWorld [mkUser 0 "alice" (Some "c1") 0] [] ["c1"; "c2"] 9 2 [] 
                       [Emit ["c1"; "c2"] "receiveMessage" (PArray [])])
              eq_refl) as [Hstep [Hm [Ho [_ Hget]]]].
  rewrite Hstep. split; [exact Hm|]. exact (Hget eq_refl).
Defined.

Section StoreFailure.

(** The HTTP handlers answer a store failure with 500 and the raw
    error message. *)
Lemma http_store_failure w err fs :
  faults w = Some err :: fs ->
  out (step GetMessages w) = out w ++ [Respond 500 (JError err)] /\
  out (step GetOnlineUsers w) = out w ++ [Respond 500 (JError err)].
Proof.
  intros H. destruct w as [w_users w_messages w_sockets w_clock w_oid w_faults w_out].
  cbn in H. subst w_faults. unfold_handlers. cbn. split; reflexivity.
Qed.

(** The three socket handlers written with [try]/[catch] log a store
    failure of their first call and do nothing else. *)
Lemma caught_store_failure w err fs sid :
  faults w = Some err :: fs ->
  (forall data, step (RegisterUser sid data) w = push_out (ConsoleError err) (set_faults fs w)) /\
  (forall data, step (SendMessage sid data) w = push_out (ConsoleError err) (set_faults fs w)) /\
  out (step (Disconnect sid) w) = out w ++ [ConsoleError err].
Proof.
  intros H. destruct w as [w_users w_messages w_sockets w_clock w_oid w_faults w_out].
  cbn in H. subst w_faults. unfold_handlers. cbn. repeat split; reflexivity.
Qed.

(** A failure of the second store call of a caught handler is logged
    as well: nothing is emitted and nothing reaches the runtime. *)
Lemma caught_second_store_failure w err fs sid :
  faults w = None :: Some err :: fs ->
  (forall data, exists line,
      out (step (RegisterUser sid data) w) = out w ++ [ConsoleLog line; ConsoleError err]) /\
  (forall data u, find (has_socket sid) (users w) = Some u ->
      out (step (SendMessage sid data) w) = out w ++ [ConsoleError err] /\
      messages (step (SendMessage sid data) w) = messages w) /\
  (exists line, out (step (Disconnect sid) w) = out w ++ [ConsoleLog line; ConsoleError err]).
Proof.
  intros H. destruct w as [w_users w_messages w_sockets w_clock w_oid w_faults w_out].
  cbn in H. subst w_faults. unfold_handlers. cbn. repeat split.
  - intros data. destruct (find (has_username (reg_username data)) w_users); cbn;
      rewrite <- app_assoc; eexists; reflexivity.
  - cbn in H. rewrite H. reflexivity.
  - cbn in H. rewrite H. reflexivity.
  - rewrite <- app_assoc. eexists. reflexivity.
Qed.

(** [clearChat] has no [catch]: the rejection of its store call is
    not logged by the handler and is left to the runtime. *)
Lemma clearChat_store_failure w err fs sid :
  faults w = Some err :: fs ->
  step (ClearChat sid) w = push_out (UnhandledRejection err) (set_faults fs w).
Proof.
  intros H. destruct w as [w_users w_messages w_sockets w_clock w_oid w_faults w_out].
  cbn in H. subst w_faults. unfold_handlers. cbn. reflexivity.
Qed.

End StoreFailure.

(** C5, at the failing input: when the store rejects [deleteMany], the
    [clearChat] handler logs nothing with [console.error]; the only
    effect is a promise rejection nobody handles, whereas [registerUser]
    in the same world logs the error. *)
Example clearChat_store_failure_unhandled :
  out (step (ClearChat "c1")
         (mkWorld [mkUser 0 "alice" (Some "c1") 0]
                  [mkMessage 1 "alice" "hi" None None 5] ["c1"] 9 2
                  [Some "connection lost"] []))
    = [UnhandledRejection "connection lost"] /\
  out (step (RegisterUser "c1" (mkRegisterData "alice"))
         (mkWorld [mkUser 0 "alice" (Some "c1") 0]
                  [mkMessage 1 "alice" "hi" None None 5] ["c1"] 9 2
                  [Some "connection lost"] []))
    = [ConsoleError "connection lost"].
Proof. split; reflexivity. Qed.

Section Upload.



End Upload.

Section Frame.

(** One event either leaves the messages alone, or is an accepted
    [sendMessage] that appends one message, or is a [clearChat] that
    removes them all. *)
Lemma step_messages e w :
  messages (step e w) = messages w \/
  (exists s d u m,
      e = SendMessage s d /\ find (has_socket s) (users w) = Some u /\
      sender m = username u /\ messages (step e w) = messages w ++ [m]) \/
  (exists s, e = ClearChat s /\ messages (step e w) = []).
Proof.
  destruct w as [w_users w_messages w_sockets w_clock w_oid w_faults w_out].
  destruct e; unfold_handlers; cbn.
  - now left.
  - destruct w_faults as [|[e|] [|[e'|] fs]]; cbn;
      destruct (find (has_username (reg_username data)) w_users); cbn; now left.
  - destruct (find (has_socket socket_id) w_users) as [u|] eqn:E.
    + destruct w_faults as [|[e|] [|[e'|] fs]]; cbn; rewrite ?E; cbn;
        try (now left);
        right; left; exists socket_id, data, u; eexists;
        (split; [reflexivity | split; [exact E | split; [|reflexivity]]]);
        reflexivity.
    + destruct w_faults as [|[e|] fs]; cbn; rewrite ?E; cbn; now left.
  - destruct w_faults as [|[e|] fs]; cbn;
      try (now left); right; right; exists socket_id; split; reflexivity.
  - destruct w_faults as [|[e|] [|[e'|] fs]]; cbn; now left.
  - destruct w_faults as [|[e|] fs]; cbn; now left.
  - destruct w_faults as [|[e|] fs]; cbn; now left.
  - destruct part as [p|]; cbn; [destruct (Js.truthy _)|]; cbn; now left.
  - now left.
Qed.

Lemma step_messages_presence w :
  (forall s d, messages (step (RegisterUser s d) w) = messages w) /\
  (forall s, messages (step (Disconnect s) w) = messages w).
Proof.
  split; intros.
  - destruct (step_messages (RegisterUser s d) w) as [H|[H|H]]; [exact H | |].
    + destruct H as (? & ? & ? & ? & H & _). discriminate.
    + destruct H as (? & H & _). discriminate.
  - destruct (step_messages (Disconnect s) w) as [H|[H|H]]; [exact H | |].
    + destruct H as (? & ? & ? & ? & H & _). discriminate.
    + destruct H as (? & H & _). discriminate.
Qed.

Lemma run_messages_prefix tr w :
  existsb is_clearChat tr = false ->
  exists added, messages (run tr w) = messages w ++ added.
Proof.
  revert w. induction tr as [|e tr IH]; intros w H.
  - exists []. cbn. now rewrite app_nil_r.
  - cbn [existsb] in H. apply orb_false_iff in H. destruct H as [He Htr].
    rewrite run_cons. destruct (IH (step e w) Htr) as [added Hadd]. rewrite Hadd.
    destruct (step_messages e w) as [H|[H|H]].
    + rewrite H. now exists added.
    + destruct H as (s & d & u & m & _ & _ & _ & H). rewrite H, <- app_assoc.
      now exists ([m] ++ added).
    + destruct H as (s & E & _). subst e. discriminate.
Qed.

End Frame.

(** C8: no operation modifies a stored message.  Over a sequence of
    events without [clearChat], the messages stored before are a prefix
    of the messages stored after, each one as it was; [registerUser] and
    [disconnect] leave the collection unchanged; and any single event
    either leaves it unchanged, or is a [sendMessage] of a registered
    connection that appends one message, or is a [clearChat] that
    empties it. *)
Theorem messages_never_modified tr w :
  existsb is_clearChat tr = false ->
  (exists added, messages (run tr w) = messages w ++ added) /\
  (forall m, In m (messages w) -> In m (messages (run tr w))) /\
  (forall s d w0, messages (step (RegisterUser s d) w0) = messages w0) /\
  (forall s w0, messages (step (Disconnect s) w0) = messages w0) /\
  (forall e w0,
      messages (step e w0) = messages w0 \/
      (exists s d u m,
          e = SendMessage s d /\ find (has_socket s) (users w0) = Some u /\
          sender m = username u /\ messages (step e w0) = messages w0 ++ [m]) \/
      (exists s, e = ClearChat s /\ messages (step e w0) = [])).
Proof.
  intros H. destruct (run_messages_prefix tr w H) as [added Hadd].
  split; [now exists added | split; [|split; [|split]]].
  - intros m Hin. rewrite Hadd. apply in_or_app. now left.
  - intros s d w0. apply step_messages_presence.
  - intros s w0. apply step_messages_presence.
  - apply step_messages.
Qed.

Lemma messages_never_modified_witness :
  exists added,
    messages (run [RegisterUser "c1" (mkRegisterData "alice");
                   SendMessage "c1" (mkMessageData (Some "again") None None);
                   Disconnect "c1"]
                  (mkWorld [] [mkMessage 0 "bob" "hi" None None 5] ["c1"] 9 1 [] []))
    = [mkMessage 0 "bob" "hi" None None 5] ++ added.
Proof.
  exact (proj1 (messages_never_modified
                  [RegisterUser "c1" (mkRegisterData "alice");
                   SendMessage "c1" (mkMessageData (Some "again") None None);
                   Disconnect "c1"]
                  (mkWorld [] [mkMessage 0 "bob" "hi" None None 5] ["c1"] 9 1 [] [])
                  eq_refl)).
Defined.

Section Records.

Lemma user_socket_of_record l u :
  NoDup (map username l) -> In u l -> user_socket l (username u) = socketId u.
Proof.
  induction l as [|x t IH]; intros Hnd Hin; [destruct Hin|].
  cbn [map] in Hnd. inversion Hnd as [|? ? Hnotin Hnd']; subst.
  rewrite user_socket_cons. destruct Hin as [E|Hin].
  - subst x. now rewrite String.eqb_refl.
  - destruct (String.eqb_spec (username x) (username u)) as [E|E].
    + exfalso. apply Hnotin. rewrite E. now apply in_map.
    + now apply IH.
Qed.

Lemma user_socket_record l n s :
  user_socket l n = Some s ->
  exists u, In u l /\ username u = n /\ socketId u = Some s.
Proof.
  unfold user_socket. destruct (find (has_username n) l) as [u|] eqn:E; [|discriminate].
  intros H. apply find_username_some in E. exists u. tauto.
Qed.

Lemma single_record l u u' :
  NoDup (map username l) -> In u l -> In u' l -> username u = username u' -> u = u'.
Proof.
  induction l as [|x t IH]; intros Hnd Hu Hu' E; [destruct Hu|].
  cbn [map] in Hnd. inversion Hnd as [|? ? Hnotin Hnd']; subst.
  destruct Hu as [Hu|Hu], Hu' as [Hu'|Hu'].
  - congruence.
  - subst x. exfalso. apply Hnotin. rewrite E. now apply in_map.
  - subst x. exfalso. apply Hnotin. rewrite <- E. now apply in_map.
  - now apply IH.
Qed.

(** Unsetting the socket of the first holder [u0] of [s]. *)
Lemma user_socket_unset_first l s u0 n :
  NoDup (map username l) ->
  find (has_socket s) l = Some u0 ->
  user_socket (update_first (has_socket s) (with_socketId None) l) n =
  if String.eqb n (username u0) then None else user_socket l n.
Proof.
  induction l as [|x t IH]; intros Hnd Hfind; [discriminate|].
  cbn [map] in Hnd. inversion Hnd as [|? ? Hnotin Hnd']; subst.
  cbn [find update_first] in *. destruct (has_socket s x) eqn:Ex.
  - inversion Hfind; subst u0. rewrite !user_socket_cons.
    cbn [username socketId with_socketId]. rewrite (String.eqb_sym n).
    destruct (String.eqb (username x) n); reflexivity.
  - rewrite !user_socket_cons.
    destruct (String.eqb_spec (username x) n) as [En|En].
    + destruct (String.eqb_spec n (username u0)) as [E0|E0]; [|reflexivity].
      exfalso. apply Hnotin. rewrite En, E0. apply in_map.
      apply find_some in Hfind. tauto.
    + now apply IH.
Qed.

(** Unsetting the holder of another socket leaves [n] connected. *)
Lemma user_socket_unset_other l s c n :
  s <> c -> user_socket l n = Some c ->
  user_socket (update_first (has_socket s) (with_socketId None) l) n = Some c.
Proof.
  intros Hsc. induction l as [|x t IH]; intros H; [exact H|].
  cbn [update_first]. rewrite user_socket_cons in H.
  destruct (has_socket s x) eqn:Ex.
  - rewrite user_socket_cons. cbn [username socketId with_socketId].
    destruct (String.eqb (username x) n); [|exact H].
    exfalso. unfold has_socket in Ex. rewrite H in Ex.
    apply String.eqb_eq in Ex. congruence.
  - rewrite user_socket_cons. destruct (String.eqb (username x) n); [exact H|].
    now apply IH.
Qed.

(** A user stays connected through events that neither arrive on its
    connection nor register its name. *)
Lemma stays_connected tr c n w :
  faults w = [] ->
  forallb (leaves_alone c n) tr = true ->
  user_socket (users w) n = Some c ->
  user_socket (users (run tr w)) n = Some c.
Proof.
  revert w. induction tr as [|e tr IH]; intros w Hf Htr H; [exact H|].
  cbn [forallb] in Htr. apply andb_true_iff in Htr. destruct Htr as [He Htr].
  rewrite run_cons. destruct (step_users_healthy e w Hf) as [Hf' Hu].
  apply IH; [exact Hf' | exact Htr |]. rewrite Hu. clear Hu.
  unfold leaves_alone in He. apply andb_true_iff in He. destruct He as [Hs Hr].
  destruct e; try exact H; cbn in Hs, Hr.
  - rewrite user_socket_upsert.
    destruct (String.eqb_spec n (reg_username data)) as [E|E]; [|exact H].
    subst n. rewrite String.eqb_refl in Hr. discriminate.
  - apply user_socket_unset_other; [|exact H].
    intros E. subst socket_id. rewrite String.eqb_refl in Hs. discriminate.
Qed.

End Records.

(** C7: when a username is registered from connection [c1] and then
    again from another connection [c2], there is a single user record
    of that name and its [socketId] is [c2]; provided [c1] holds no
    other username, a [sendMessage] that then arrives on [c1] gets the
    "Unauthorized user" error on [c1] only, and persists nothing. *)
Theorem reregistration_last_wins c1 c2 name data w :
  faults w = [] -> unique_usernames w -> c1 <> c2 ->
  (forall u, In u (users w) -> socketId u = Some c1 -> username u = name) ->
  (exists u,
      In u (users (run [RegisterUser c1 (mkRegisterData name);
                        RegisterUser c2 (mkRegisterData name)] w)) /\
      username u = name /\ socketId u = Some c2 /\
      forall u',
        In u' (users (run [RegisterUser c1 (mkRegisterData name);
                           RegisterUser c2 (mkRegisterData name)] w)) ->
        username u' = name -> u' = u) /\
  messages (run [RegisterUser c1 (mkRegisterData name);
                 RegisterUser c2 (mkRegisterData name);
                 SendMessage c1 data] w) =
    messages (run [RegisterUser c1 (mkRegisterData name);
                   RegisterUser c2 (mkRegisterData name)] w) /\
  out (run [RegisterUser c1 (mkRegisterData name);
            RegisterUser c2 (mkRegisterData name);
            SendMessage c1 data] w) =
    out (run [RegisterUser c1 (mkRegisterData name);
              RegisterUser c2 (mkRegisterData name)] w)
      ++ [Emit [c1] "error" (PError "Unauthorized user")].
Proof.
  intros Hf Hnd Hc Hother.
  change (run [RegisterUser c1 (mkRegisterData name);
               RegisterUser c2 (mkRegisterData name);
               SendMessage c1 data] w)
    with (step (SendMessage c1 data)
            (run [RegisterUser c1 (mkRegisterData name);
                  RegisterUser c2 (mkRegisterData name)] w)).
  change (run [RegisterUser c1 (mkRegisterData name);
               RegisterUser c2 (mkRegisterData name)] w)
    with (step (RegisterUser c2 (mkRegisterData name))
            (step (RegisterUser c1 (mkRegisterData name)) w)).
  set (w1 := step (RegisterUser c1 (mkRegisterData name)) w).
  set (w2 := step (RegisterUser c2 (mkRegisterData name)) w1).
  destruct (step_users_healthy (RegisterUser c1 (mkRegisterData name)) w Hf) as [Hf1 Hu1].
  fold w1 in Hf1, Hu1.
  destruct (step_users_healthy (RegisterUser c2 (mkRegisterData name)) w1 Hf1) as [Hf2 Hu2].
  fold w2 in Hf2, Hu2. cbn [reg_username] in Hu1, Hu2.
  assert (Hnd1 : unique_usernames w1) by now apply step_unique_usernames.
  assert (Hnd2 : unique_usernames w2) by now apply step_unique_usernames.
  assert (Hsock : forall n, user_socket (users w2) n =
                            if String.eqb n name then Some c2 else user_socket (users w) n).
  { intros n. rewrite Hu2, user_socket_upsert, Hu1, user_socket_upsert.
    destruct (String.eqb n name); reflexivity. }
  assert (Hfree : forall u, In u (users w2) -> socketId u <> Some c1).
  { intros u Hin Hs. rewrite <- (user_socket_of_record _ _ Hnd2 Hin), Hsock in Hs.
    destruct (String.eqb_spec (username u) name) as [E|E]; [congruence|].
    apply user_socket_record in Hs. destruct Hs as [r [Hr [Hn Hs]]].
    apply E. rewrite <- Hn. now apply Hother. }
  split.
  - pose proof (Hsock name) as Hname. rewrite String.eqb_refl in Hname.
    apply user_socket_record in Hname. destruct Hname as [u [Hin [Hn Hs]]].
    exists u. repeat split; try assumption.
    intros u' Hin' Hn'. apply (single_record (users w2)); congruence || assumption.
  - destruct (sendMessage_unauthorized c1 data w2 Hfree) as [Hm [_ [_ [_ Ho]]]].
    split; [exact Hm|]. apply Ho. now apply healthy_store_answers.
Qed.

Lemma reregistration_last_wins_witness :
  out (run [RegisterUser "c1" (mkRegisterData "alice");
            RegisterUser "c2" (mkRegisterData "alice");
            SendMessage "c1" (mkMessageData (Some "hi") None None)]
           (mkWorld [] [] ["c1"; "c2"] 9 0 [] [])) =
  out (run [RegisterUser "c1" (mkRegisterData "alice");
            RegisterUser "c2" (mkRegisterData "alice")]
           (mkWorld [] [] ["c1"; "c2"] 9 0 [] []))
    ++ [Emit ["c1"] "error" (PError "Unauthorized user")].
Proof.
  refine (proj2 (proj2 (reregistration_last_wins "c1" "c2" "alice"
            (mkMessageData (Some "hi") None None)
            (mkWorld [] [] ["c1"; "c2"] 9 0 [] []) eq_refl _ _ _))).
  - constructor.
  - discriminate.
  - intros u [].
Defined.

Lemma run_unique_usernames tr w :
  faults w = [] -> unique_usernames w -> unique_usernames (run tr w).
Proof.
  revert w. induction tr as [|e tr IH]; intros w Hf Hu; [exact Hu|].
  rewrite run_cons. apply IH.
  - now apply step_users_healthy.
  - now apply step_unique_usernames.
Qed.

Section DoubleRegistration.

Variables (c a b : string) (w : World).
Hypothesis Hhealthy : faults w = [].
Hypothesis Hunique : unique_usernames w.
Hypothesis Hab : a <> b.
Hypothesis Hfresh : forall u, In u (users w) -> socketId u <> Some c.

Let w1 := step (RegisterUser c (mkRegisterData a)) w.
Let w2 := step (RegisterUser c (mkRegisterData b)) w1.
Let w3 := step (Disconnect c) w2.

Lemma twice_healthy : faults w2 = [] /\ faults w3 = [].
Proof.
  assert (H1 : faults w1 = []) by now apply step_users_healthy.
  assert (H2 : faults w2 = []) by now apply step_users_healthy.
  split; [exact H2 | now apply step_users_healthy].
Qed.

Lemma twice_unique : unique_usernames w2 /\ unique_usernames w3.
Proof.
  assert (H1 : faults w1 = []) by now apply step_users_healthy.
  assert (U1 : unique_usernames w1) by now apply step_unique_usernames.
  assert (U2 : unique_usernames w2) by now apply step_unique_usernames.
  split; [exact U2 | apply step_unique_usernames; [apply twice_healthy | exact U2]].
Qed.

Lemma twice_sockets n :
  user_socket (users w2) n =
  if (String.eqb n a || String.eqb n b)%bool then Some c else user_socket (users w) n.
Proof.
  assert (H1 : faults w1 = []) by now apply step_users_healthy.
  destruct (step_users_healthy (RegisterUser c (mkRegisterData a)) w Hhealthy) as [_ Hu1].
  destruct (step_users_healthy (RegisterUser c (mkRegisterData b)) w1 H1) as [_ Hu2].
  fold w1 in Hu1. fold w2 in Hu2. cbn [reg_username] in Hu1, Hu2.
  rewrite Hu2, user_socket_upsert, Hu1, user_socket_upsert.
  destruct (String.eqb n a), (String.eqb n b); reflexivity.
Qed.

Lemma fresh_socket n : user_socket (users w) n <> Some c.
Proof.
  intros H. apply user_socket_record in H. destruct H as [u [Hin [_ Hs]]].
  exact (Hfresh u Hin Hs).
Qed.

(** The [disconnect] unsets the record of one of the two names, the
    first in the collection, and no other. *)
Lemma disconnect_unsets_one :
  exists first,
    (first = a \/ first = b) /\
    forall n, user_socket (users w3) n =
              if String.eqb n first then None else user_socket (users w2) n.
Proof.
  destruct twice_healthy as [Hf2 _]. destruct twice_unique as [Hu2 _].
  destruct (step_users_healthy (Disconnect c) w2 Hf2) as [_ Hu3]. fold w3 in Hu3.
  destruct (find (has_socket c) (users w2)) as [u0|] eqn:E.
  - exists (username u0). split.
    + apply find_socket_some in E. destruct E as [Hin Hs].
      rewrite <- (user_socket_of_record _ _ Hu2 Hin), twice_sockets in Hs.
      destruct (String.eqb_spec (username u0) a) as [Ea|Ea]; [now left|].
      destruct (String.eqb_spec (username u0) b) as [Eb|Eb]; [now right|].
      cbn in Hs. exfalso. exact (fresh_socket _ Hs).
    + intros n. rewrite Hu3. now apply user_socket_unset_first.
  - exfalso. pose proof (twice_sockets a) as Ha.
    rewrite String.eqb_refl in Ha. cbn in Ha.
    apply user_socket_record in Ha. destruct Ha as [u [Hin [_ Hs]]].
    apply (find_none _ _ E) in Hin. unfold has_socket in Hin.
    rewrite Hs, String.eqb_refl in Hin. discriminate.
Qed.

End DoubleRegistration.

(** C10: when a connection that holds no username registers two
    different usernames [a] then [b], both user records hold its socket
    id and [GET /online-users] reports both; its [disconnect] unsets
    the [socketId] of one of the two records only, and the other
    username is still reported online, also after any further events
    that neither arrive on that connection nor register one of the two
    names again. *)
Theorem double_registration_leaves_one_online c a b w tr :
  faults w = [] -> unique_usernames w -> a <> b ->
  (forall u, In u (users w) -> socketId u <> Some c) ->
  forallb (fun e => leaves_alone c a e && leaves_alone c b e)%bool tr = true ->
  (exists ua ub,
      In ua (users (run [RegisterUser c (mkRegisterData a);
                         RegisterUser c (mkRegisterData b)] w)) /\
      In ub (users (run [RegisterUser c (mkRegisterData a);
                         RegisterUser c (mkRegisterData b)] w)) /\
      username ua = a /\ username ub = b /\
      socketId ua = Some c /\ socketId ub = Some c) /\
  reported_online (run [RegisterUser c (mkRegisterData a);
                        RegisterUser c (mkRegisterData b)] w) a /\
  reported_online (run [RegisterUser c (mkRegisterData a);
                        RegisterUser c (mkRegisterData b)] w) b /\
  exists gone kept,
    (gone = a /\ kept = b \/ gone = b /\ kept = a) /\
    ~ reported_online (run [RegisterUser c (mkRegisterData a);
                            RegisterUser c (mkRegisterData b);
                            Disconnect c] w) gone /\
    reported_online (run [RegisterUser c (mkRegisterData a);
                          RegisterUser c (mkRegisterData b);
                          Disconnect c] w) kept /\
    reported_online (run tr (run [RegisterUser c (mkRegisterData a);
                                  RegisterUser c (mkRegisterData b);
                                  Disconnect c] w)) kept.
Proof.
  intros Hf Hnd Hab Hfresh Htr.
  change (run [RegisterUser c (mkRegisterData a);
               RegisterUser c (mkRegisterData b);
               Disconnect c] w)
    with (step (Disconnect c)
            (run [RegisterUser c (mkRegisterData a);
                  RegisterUser c (mkRegisterData b)] w)).
  change (run [RegisterUser c (mkRegisterData a);
               RegisterUser c (mkRegisterData b)] w)
    with (step (RegisterUser c (mkRegisterData b))
            (step (RegisterUser c (mkRegisterData a)) w)).
  set (w2 := step (RegisterUser c (mkRegisterData b))
               (step (RegisterUser c (mkRegisterData a)) w)).
  set (w3 := step (Disconnect c) w2).
  destruct (twice_healthy c a b w Hf) as [Hf2 Hf3]. fold w2 in Hf2. fold w3 in Hf3.
  destruct (twice_unique c a b w Hf Hnd) as [Hu2 Hu3]. fold w2 in Hu2. fold w3 in Hu3.
  pose proof (twice_sockets c a b w Hf) as Hs2. fold w2 in Hs2.
  assert (Ha2 : user_socket (users w2) a = Some c).
  { rewrite Hs2, String.eqb_refl. reflexivity. }
  assert (Hb2 : user_socket (users w2) b = Some c).
  { rewrite Hs2, String.eqb_refl, orb_true_r. reflexivity. }
  assert (Hrep : forall w', faults w' = [] -> unique_usernames w' ->
                   forall n, reported_online w' n <-> user_socket (users w') n <> None).
  { intros w' Hf' Hu' n. rewrite reported_online_iff by now apply healthy_store_answers.
    unfold online_usernames. now apply in_online_user_socket. }
  split; [|split; [|split]].
  - destruct (user_socket_record _ _ _ Ha2) as [ua [Hina [Hna Hsa]]].
    destruct (user_socket_record _ _ _ Hb2) as [ub [Hinb [Hnb Hsb]]].
    exists ua, ub. tauto.
  - apply Hrep; [assumption | assumption |]. rewrite Ha2. discriminate.
  - apply Hrep; [assumption | assumption |]. rewrite Hb2. discriminate.
  - destruct (disconnect_unsets_one c a b w Hf Hnd Hfresh) as [gone [Hgone Hs3]].
    fold w2 w3 in Hs3.
    assert (Hkeep : forall kept, kept <> gone -> user_socket (users w2) kept = Some c ->
              forallb (leaves_alone c kept) tr = true ->
              ~ reported_online w3 gone /\ reported_online w3 kept /\
              reported_online (run tr w3) kept).
    { intros kept Hne Hk Hquiet.
      assert (Hk3 : user_socket (users w3) kept = Some c).
      { rewrite Hs3. destruct (String.eqb_spec kept gone); [contradiction | exact Hk]. }
      split; [|split].
      - rewrite Hrep by assumption. rewrite Hs3, String.eqb_refl. congruence.
      - rewrite Hrep by assumption. rewrite Hk3. discriminate.
      - rewrite Hrep.
        + rewrite (stays_connected tr c kept w3 Hf3 Hquiet Hk3). discriminate.
        + now apply run_faults_healthy.
        + now apply run_unique_usernames. }
    assert (Hqa : forallb (leaves_alone c a) tr = true).
    { rewrite forallb_forall in Htr |- *. intros e He.
      apply Htr in He. apply andb_true_iff in He. tauto. }
    assert (Hqb : forallb (leaves_alone c b) tr = true).
    { rewrite forallb_forall in Htr |- *. intros e He.
      apply Htr in He. apply andb_true_iff in He. tauto. }
    destruct Hgone as [Eg|Eg]; subst gone.
    + exists a, b. split; [now left|]. apply Hkeep; [congruence | exact Hb2 | exact Hqb].
    + exists b, a. split; [now right|]. apply Hkeep; [congruence | exact Ha2 | exact Hqa].
Qed.

Lemma double_registration_leaves_one_online_witness :
  reported_online
    (run [Connection "c2"; RegisterUser "c2" (mkRegisterData "carol"); Disconnect "c2"]
       (run [RegisterUser "c1" (mkRegisterData "alice");
             RegisterUser "c1" (mkRegisterData "bob");
             Disconnect "c1"] (mkWorld [] [] ["c1"] 9 0 [] []))) "bob".
Proof.
  destruct (double_registration_leaves_one_online "c1" "alice" "bob"
              (mkWorld [] [] ["c1"] 9 0 [] [])
              [Connection "c2"; RegisterUser "c2" (mkRegisterData "carol"); Disconnect "c2"])
    as [_ [_ [_ [gone [kept [Hgk [Hgone [_ Hkept]]]]]]]].
  - reflexivity.
  - constructor.
  - discriminate.
  - intros u [].
  - reflexivity.
  - destruct Hgk as [[Eg Ek]|[Eg Ek]]; subst gone kept; [exact Hkept|].
    exfalso. apply Hgone. exists ["bob"]. split; [vm_compute; reflexivity | now left].
Defined.

(* ===================================================================== *)
(** * Further properties of the handlers *)
(* ===================================================================== *)

Section UsersUnderAnyStore.

(** Whatever the store does, one event leaves the user collection
    alone, or is a [registerUser] whose upsert went through, or is a
    [disconnect] whose unset went through. *)
Lemma step_users e w :
  users (step e w) = users w \/
  (exists s d, e = RegisterUser s d /\
               users (step e w) = upsert_users (reg_username d) s w) \/
  (exists s, e = Disconnect s /\
             users (step e w) =
               update_first (has_socket s) (with_socketId None) (users w)).
Proof.
  destruct w as [w_users w_messages w_sockets w_clock w_oid w_faults w_out].
  destruct e; unfold_handlers; unfold upsert_users; cbn.
  - now left.
  - destruct w_faults as [|[e|] [|[e'|] fs]]; cbn; try (now left);
      right; left; exists socket_id, data; (split; [reflexivity|]);
      destruct (find (has_username (reg_username data)) w_users); reflexivity.
  - destruct w_faults as [|[e|] [|[e'|] fs]]; cbn;
      destruct (find (has_socket socket_id) w_users); cbn; now left.
  - destruct w_faults as [|[e|] fs]; cbn; now left.
  - destruct w_faults as [|[e|] [|[e'|] fs]]; cbn; try (now left);
      right; right; exists socket_id; split; reflexivity.
  - destruct w_faults as [|[e|] fs]; cbn; now left.
  - destruct w_faults as [|[e|] fs]; cbn; now left.
  - destruct part as [p|]; cbn; [destruct (Js.truthy _)|]; cbn; now left.
  - now left.
Qed.

Lemma update_first_identity p s l :
  map user_identity (update_first p (with_socketId s) l) = map user_identity l.
Proof.
  induction l as [|x t IH]; cbn; [reflexivity|].
  destruct (p x); cbn; [reflexivity | now rewrite IH].
Qed.

Lemma step_identity_prefix e w :
  prefix_of (map user_identity (users w)) (map user_identity (users (step e w))).
Proof.
  destruct (step_users e w) as [H|[(s & d & _ & H)|(s & _ & H)]]; rewrite H.
  - exists []. now rewrite app_nil_r.
  - unfold upsert_users. destruct (find (has_username (reg_username d)) (users w)).
    + rewrite update_first_identity. exists []. now rewrite app_nil_r.
    + rewrite map_app. eexists. reflexivity.
  - rewrite update_first_identity. exists []. now rewrite app_nil_r.
Qed.

End UsersUnderAnyStore.

(** X1: the unique index on [username] is an invariant: over any
    sequence of events and whatever the store does (failures included),
    a collection without two records of one username stays so. *)
Theorem unique_usernames_invariant tr w :
  unique_usernames w -> unique_usernames (run tr w).
Proof.
  revert w. induction tr as [|e tr IH]; intros w H; [exact H|].
  rewrite run_cons. apply IH. unfold unique_usernames in *.
  destruct (step_users e w) as [E|[(s & d & _ & E)|(s & _ & E)]]; rewrite E.
  - exact H.
  - now apply upsert_usernames_NoDup.
  - now rewrite update_first_usernames.
Qed.

Lemma unique_usernames_invariant_witness :
  unique_usernames
    (run [RegisterUser "c1" (mkRegisterData "alice");
          RegisterUser "c2" (mkRegisterData "alice");
          RegisterUser "c2" (mkRegisterData "bob"); Disconnect "c2"]
         (mkWorld [] [] [] 0 0 [None; Some "timeout"] [])).
Proof.
  apply (unique_usernames_invariant
           [RegisterUser "c1" (mkRegisterData "alice");
            RegisterUser "c2" (mkRegisterData "alice");
            RegisterUser "c2" (mkRegisterData "bob"); Disconnect "c2"]
           (mkWorld [] [] [] 0 0 [None; Some "timeout"] [])).
  constructor.
Defined.

(** X2: no event deletes or re-creates a user record: over any
    sequence of events and whatever the store does, the records that
    were there are still there, in the same order and with the same id,
    username and [joinedAt]; new records are only added after them. *)
Theorem user_records_never_deleted tr w :
  prefix_of (map user_identity (users w)) (map user_identity (users (run tr w))).
Proof.
  revert w. induction tr as [|e tr IH]; intros w.
  - exists []. cbn. now rewrite app_nil_r.
  - rewrite run_cons. destruct (IH (step e w)) as [r2 H2].
    destruct (step_identity_prefix e w) as [r1 H1].
    exists (r1 ++ r2). now rewrite H2, H1, app_assoc.
Qed.

Section RegisterUser.


Lemma upsert_online name s w :
  In name (map username (filter socketId_exists (upsert_users name s w))).
Proof.
  unfold upsert_users. destruct (find (has_username name) (users w)) as [u|] eqn:E.
  - revert E. generalize (users w) as l.
    induction l as [|x t IH]; intros E; [discriminate|].
    cbn [find update_first] in *. destruct (has_username name x) eqn:Ex.
    + cbn. left. unfold has_username in Ex. now apply String.eqb_eq.
    + cbn [filter]. destruct (socketId_exists x); cbn; [right|]; now apply IH.
  - rewrite filter_app, map_app. apply in_or_app. right. cbn. now left.
Qed.

Lemma update_first_same name s l u :
  find (has_username name) l = Some u -> socketId u = Some s ->
  update_first (has_username name) (with_socketId (Some s)) l = l.
Proof.
  induction l as [|x t IH]; intros E Hs; [reflexivity|].
  cbn [find update_first] in *. destruct (has_username name x).
  - inversion E; subst x. destruct u as [i n so j]. cbn in Hs. subst so. reflexivity.
  - f_equal. now apply IH.
Qed.

Lemma find_after_upsert name s w :
  exists u, find (has_username name) (upsert_users name s w) = Some u /\
            socketId u = Some s.
Proof.
  pose proof (user_socket_upsert name s w name) as H. rewrite String.eqb_refl in H.
  unfold user_socket in H.
  destruct (find (has_username name) (upsert_users name s w)) as [u|]; [|discriminate].
  exists u. split; [reflexivity | exact H].
Qed.

End RegisterUser.



(** X4: registering the same username again from the same connection
    changes no user record: with a healthy store the collection after
    the second [registerUser] is the collection after the first. *)
Theorem registerUser_idempotent s d w :
  faults w = [] ->
  users (run [RegisterUser s d; RegisterUser s d] w) = users (run [RegisterUser s d] w).
Proof.
  intros Hf.
  change (run [RegisterUser s d; RegisterUser s d] w)
    with (step (RegisterUser s d) (step (RegisterUser s d) w)).
  change (run [RegisterUser s d] w) with (step (RegisterUser s d) w).
  destruct (step_users_healthy (RegisterUser s d) w Hf) as [Hf1 Hu1].
  destruct (step_users_healthy (RegisterUser s d) _ Hf1) as [_ Hu2].
  rewrite Hu2. unfold upsert_users at 1. rewrite Hu1.
  destruct (find_after_upsert (reg_username d) s w) as [u [E Hs]].
  rewrite E. now apply update_first_same with (u := u).
Qed.

Lemma registerUser_idempotent_witness :
  users (run [RegisterUser "c1" (mkRegisterData "alice");
              RegisterUser "c1" (mkRegisterData "alice")] init_world) =
  [mkUser 0 "alice" (Some "c1") 0].
Proof.
  rewrite (registerUser_idempotent "c1" (mkRegisterData "alice") init_world eq_refl).
  reflexivity.
Defined.

(** X5: [registerUser] is not atomic: when the upsert succeeds and the
    query for the online list then fails, the user record is written
    and the user counts as online, but nothing is broadcast; the error
    is logged. *)
Theorem registerUser_partial_failure s d w err fs :
  faults w = None :: Some err :: fs ->
  users (step (RegisterUser s d) w) = upsert_users (reg_username d) s w /\
  In (reg_username d) (online_usernames (step (RegisterUser s d) w)) /\
  out (step (RegisterUser s d) w) =
    out w ++ [ConsoleLog (reg_username d ++ " is connected")%string; ConsoleError err].
Proof.
  intros H.
  assert (Hu : users (step (RegisterUser s d) w) = upsert_users (reg_username d) s w /\
               out (step (RegisterUser s d) w) =
                 out w ++ [ConsoleLog (reg_username d ++ " is connected")%string;
                           ConsoleError err]).
  { destruct w as [w_users w_messages w_sockets w_clock w_oid w_faults w_out].
    cbn in H. subst w_faults. unfold_handlers. unfold upsert_users. cbn.
    destruct (find (has_username (reg_username d)) w_users); cbn;
      rewrite <- app_assoc; split; reflexivity. }
  destruct Hu as [Hu Ho]. split; [exact Hu | split; [|exact Ho]].
  unfold online_usernames. rewrite Hu. apply upsert_online.
Qed.

Lemma registerUser_partial_failure_witness :
  out (step (RegisterUser "c1" (mkRegisterData "alice"))
         (mkWorld [] [] ["c1"] 9 0 [None; Some "timeout"] [])) =
    [ConsoleLog "alice is connected"; ConsoleError "timeout"] /\
  online_usernames (step (RegisterUser "c1" (mkRegisterData "alice"))
                      (mkWorld [] [] ["c1"] 9 0 [None; Some "timeout"] [])) = ["alice"].
Proof.
  destruct (registerUser_partial_failure "c1" (mkRegisterData "alice")
              (mkWorld [] [] ["c1"] 9 0 [None; Some "timeout"] []) "timeout" []
              eq_refl) as [_ [_ Ho]].
  split; [exact Ho | reflexivity].
Defined.

Section Disconnect.

Lemma update_first_none {A} (p : A -> bool) f l :
  find p l = None -> update_first p f l = l.
Proof.
  induction l as [|x t IH]; intros E; [reflexivity|].
  cbn [find update_first] in *. destruct (p x); [discriminate|].
  f_equal. now apply IH.
Qed.

(** [disconnect] when the store answers both of its calls. *)
Lemma disconnect_answered c w :
  store_answers 2 w = true ->
  users (step (Disconnect c) w) =
    update_first (has_socket c) (with_socketId None) (users w) /\
  out (step (Disconnect c) w) =
    out w ++ [ConsoleLog (Js.or_string (option_map username (find (has_socket c) (users w)))
                            "A user" ++ " disconnected")%string;
              Emit (remove_socket c (sockets w)) "userDisconnected"
                   (PUsernames (map username (filter socketId_exists
                      (update_first (has_socket c) (with_socketId None) (users w)))))].
Proof.
  intros H. destruct w as [w_users w_messages w_sockets w_clock w_oid w_faults w_out].
  unfold store_answers in H. unfold_handlers. cbn in *.
  destruct w_faults as [|[e|] [|[e'|] fs]]; cbn in *; try discriminate;
    rewrite <- app_assoc; split; reflexivity.
Qed.

End Disconnect.

(** X6: the [disconnect] of a connection that holds no username is a
    no-op on the user collection, whatever the store does; when the
    store answers, it logs "A user disconnected" and broadcasts the
    online list as it was. *)
Theorem disconnect_unregistered c w :
  (forall u, In u (users w) -> socketId u <> Some c) ->
  users (step (Disconnect c) w) = users w /\
  (store_answers 2 w = true ->
   out (step (Disconnect c) w) =
     out w ++ [ConsoleLog "A user disconnected";
               Emit (remove_socket c (sockets w)) "userDisconnected"
                    (PUsernames (online_usernames w))]).
Proof.
  intros Hnone. apply find_socket_none in Hnone. split.
  - destruct (step_users (Disconnect c) w) as [E|[(s & d & E & _)|(s & E & Hu)]].
    + exact E.
    + discriminate.
    + inversion E; subst s. rewrite Hu. now apply update_first_none.
  - intros H. destruct (disconnect_answered c w H) as [_ Ho].
    rewrite Ho, Hnone, (update_first_none _ _ _ Hnone). reflexivity.
Qed.

Lemma disconnect_unregistered_witness :
  out (step (Disconnect "c2")
         (mkWorld [mkUser 0 "alice" (Some "c1") 0] [] ["c1"; "c2"] 9 1 [] [])) =
    [ConsoleLog "A user disconnected";
     Emit ["c1"] "userDisconnected" (PUsernames ["alice"])].
Proof.
  refine (proj2 (disconnect_unregistered "c2"
            (mkWorld [mkUser 0 "alice" (Some "c1") 0] [] ["c1"; "c2"] 9 1 [] []) _) eq_refl).
  intros u [E|[]]. subst u. discriminate.
Defined.

(** X7: the [disconnect] of a connection whose first holder is the
    user [u0], with unique usernames and the store answering: the log
    line names [u0] (or "A user" when the name is empty), the
    [socketId] of [u0] is unset and that of every other username is
    kept, and the broadcast [userDisconnected] list does not hold
    [u0]. *)
Theorem disconnect_unsets_holder c w u0 :
  unique_usernames w ->
  find (has_socket c) (users w) = Some u0 ->
  store_answers 2 w = true ->
  exists names,
    out (step (Disconnect c) w) =
      out w ++ [ConsoleLog ((if String.eqb (username u0) "" then "A user" else username u0)
                              ++ " disconnected")%string;
                Emit (remove_socket c (sockets w)) "userDisconnected" (PUsernames names)] /\
    ~ In (username u0) names /\
    (forall n, user_socket (users (step (Disconnect c) w)) n =
               if String.eqb n (username u0) then None else user_socket (users w) n).
Proof.
  intros Hnd Hfind H. destruct (disconnect_answered c w H) as [Hu Ho].
  assert (Hs : forall n,
             user_socket (update_first (has_socket c) (with_socketId None) (users w)) n =
             if String.eqb n (username u0) then None else user_socket (users w) n).
  { intros n. now apply user_socket_unset_first. }
  eexists. split; [|split].
  - rewrite Ho, Hfind. cbn [option_map Js.or_string]. unfold Js.truthy.
    destruct (String.eqb (username u0) ""); reflexivity.
  - rewrite in_online_user_socket by (now rewrite update_first_usernames).
    rewrite Hs, String.eqb_refl. congruence.
  - intros n. rewrite Hu. apply Hs.
Qed.

Lemma disconnect_unsets_holder_witness :
  out (step (Disconnect "c1")
         (mkWorld [mkUser 0 "alice" (Some "c1") 0; mkUser 1 "bob" (Some "c2") 3]
                  [] ["c1"; "c2"] 9 2 [] [])) =
    [ConsoleLog "alice disconnected";
     Emit ["c2"] "userDisconnected" (PUsernames ["bob"])].
Proof.
  destruct (disconnect_unsets_holder "c1"
              (mkWorld [mkUser 0 "alice" (Some "c1") 0; mkUser 1 "bob" (Some "c2") 3]
                       [] ["c1"; "c2"] 9 2 [] [])
              (mkUser 0 "alice" (Some "c1") 0)) as [names [Ho _]].
  - repeat constructor; cbn; intuition discriminate.
  - reflexivity.
  - reflexivity.
  - rewrite Ho. vm_compute in Ho. inversion Ho. reflexivity.
Defined.

(** X8: whatever the store does, [sendMessage] persists a message
    exactly when it broadcasts it: either the collection is unchanged
    and no event carrying a message is emitted, or one message is
    appended and that same message is the one [receiveMessage] event,
    sent to every connected socket. *)
Theorem sendMessage_persists_iff_broadcasts sid data w :
  exists added,
    out (step (SendMessage sid data) w) = out w ++ added /\
    ((messages (step (SendMessage sid data) w) = messages w /\
      forall recipients event m, ~ In (Emit recipients event (PMessage m)) added) \/
     (exists m,
         messages (step (SendMessage sid data) w) = messages w ++ [m] /\
         added = [Emit (sockets w) "receiveMessage" (PMessage m)])).
Proof.
  destruct w as [w_users w_messages w_sockets w_clock w_oid w_faults w_out].
  unfold_handlers. cbn.
  destruct (find (has_socket sid) w_users) as [u|] eqn:E;
    destruct w_faults as [|[e|] [|[e'|] fs]]; cbn; rewrite ?E; cbn;
    eexists; (split; [reflexivity|]);
    first [ right; eexists; split; reflexivity
          | left; split; [reflexivity|];
            intros rs ev m [Hin|[]]; discriminate ].
Qed.

(** X9: history round trip: a [sendMessage] accepted from a registered
    connection followed by [GET /messages], the store answering all
    three calls, answers 200 with the earlier messages in their order
    followed by the very message that was broadcast. *)
Theorem sendMessage_then_get_messages sid data w u :
  find (has_socket sid) (users w) = Some u ->
  store_answers 3 w = true ->
  exists m,
    sender m = username u /\
    out (run [SendMessage sid data; GetMessages] w) =
      out w ++ [Emit (sockets w) "receiveMessage" (PMessage m);
                Respond 200 (JMessages (messages w ++ [m]))].
Proof.
  intros Hfind H. destruct w as [w_users w_messages w_sockets w_clock w_oid w_faults w_out].
  unfold store_answers in H. cbn in Hfind, H. unfold run. cbn [fold_left].
  unfold_handlers. cbn.
  destruct w_faults as [|[e|] [|[e'|] [|[e''|] fs]]]; cbn in *; try discriminate;
    rewrite Hfind; cbn; rewrite <- app_assoc; eexists; (split; [|reflexivity]);
    reflexivity.
Qed.

Lemma sendMessage_then_get_messages_witness :
  out (run [SendMessage "c1" (mkMessageData (Some "hi") None None); GetMessages]
         (mkWorld [mkUser 0 "alice" (Some "c1") 0]
                  [mkMessage 1 "bob" "yo" None None 5] ["c1"] 9 2 [] [])) =
    [Emit ["c1"] "receiveMessage" (PMessage (mkMessage 2 "alice" "hi" None None 9));
     Respond 200 (JMessages [mkMessage 1 "bob" "yo" None None 5;
                             mkMessage 2 "alice" "hi" None None 9])].
Proof.
  destruct (sendMessage_then_get_messages "c1" (mkMessageData (Some "hi") None None)
              (mkWorld [mkUser 0 "alice" (Some "c1") 0]
                       [mkMessage 1 "bob" "yo" None None 5] ["c1"] 9 2 [] [])
              (mkUser 0 "alice" (Some "c1") 0) eq_refl eq_refl) as [m [_ Ho]].
  rewrite Ho. vm_compute in Ho. inversion Ho. reflexivity.
Defined.

(** X10: a message is attributed to the name its connection
    registered: when a connection that holds no username registers
    [name] and then sends, with unique usernames and a healthy store,
    the message persisted and broadcast has [sender] equal to [name]. *)
Theorem register_then_send_attribution c name data w :
  faults w = [] -> unique_usernames w ->
  (forall u, In u (users w) -> socketId u <> Some c) ->
  exists m,
    sender m = name /\
    messages (run [RegisterUser c (mkRegisterData name); SendMessage c data] w) =
      messages w ++ [m] /\
    In (Emit (sockets w) "receiveMessage" (PMessage m))
       (out (run [RegisterUser c (mkRegisterData name); SendMessage c data] w)).
Proof.
  intros Hf Hnd Hfresh.
  change (run [RegisterUser c (mkRegisterData name); SendMessage c data] w)
    with (step (SendMessage c data) (step (RegisterUser c (mkRegisterData name)) w)).
  set (w1 := step (RegisterUser c (mkRegisterData name)) w).
  destruct (step_users_healthy (RegisterUser c (mkRegisterData name)) w Hf) as [Hf1 Hu1].
  fold w1 in Hf1, Hu1. cbn [reg_username] in Hu1.
  assert (Hnd1 : unique_usernames w1) by now apply step_unique_usernames.
  assert (Hs1 : forall n, user_socket (users w1) n =
                          if String.eqb n name then Some c else user_socket (users w) n).
  { intros n. rewrite Hu1. apply user_socket_upsert. }
  assert (Hfind : exists u, find (has_socket c) (users w1) = Some u /\ username u = name).
  { destruct (find (has_socket c) (users w1)) as [u|] eqn:E.
    - exists u. split; [reflexivity|]. apply find_socket_some in E. destruct E as [Hin Hs].
      rewrite <- (user_socket_of_record _ _ Hnd1 Hin), Hs1 in Hs.
      destruct (String.eqb_spec (username u) name) as [En|En]; [exact En|].
      exfalso. apply user_socket_record in Hs. destruct Hs as [r [Hr [_ Hs]]].
      exact (Hfresh r Hr Hs).
    - exfalso. pose proof (Hs1 name) as Hn. rewrite String.eqb_refl in Hn.
      apply user_socket_record in Hn. destruct Hn as [r [Hr [_ Hs]]].
      apply (find_none _ _ E) in Hr. unfold has_socket in Hr.
      rewrite Hs, String.eqb_refl in Hr. discriminate. }
  destruct Hfind as [u [Hfind Hname]].
  destruct (sendMessage_accepted c data w1 u Hfind (healthy_store_answers 2 w1 Hf1))
    as [Hm Ho].
  assert (Hmsg : messages w1 = messages w) by apply step_messages_presence.
  assert (Hsock : sockets w1 = sockets w).
  { subst w1. clear - Hf.
    destruct w as [w_users w_messages w_sockets w_clock w_oid w_faults w_out].
    cbn in Hf. subst w_faults. unfold_handlers. cbn.
    destruct (find (has_username name) w_users); reflexivity. }
  eexists. split; [|split].
  2: { rewrite Hm, Hmsg. reflexivity. }
  - cbn. exact Hname.
  - rewrite Ho, Hsock. apply in_or_app. right. now left.
Qed.

Lemma register_then_send_attribution_witness :
  messages (run [RegisterUser "c1" (mkRegisterData "alice");
                 SendMessage "c1" (mkMessageData (Some "hi") None None)]
                (mkWorld [] [] ["c1"] 9 0 [] [])) =
    [mkMessage 1 "alice" "hi" None None 9].
Proof.
  destruct (register_then_send_attribution "c1" "alice"
              (mkMessageData (Some "hi") None None)
              (mkWorld [] [] ["c1"] 9 0 [] [])) as [m [_ [Hm _]]].
  - reflexivity.
  - constructor.
  - intros u [].
  - rewrite Hm. vm_compute in Hm. inversion Hm. reflexivity.
Defined.

(** X11: each of the two GET handlers answers exactly once and reads
    only: whatever the store does, [GET /messages] responds 200 with
    all stored messages in their stored order or 500 with an error, and
    [GET /online-users] responds 200 with the usernames whose
    [socketId] is present or 500 with an error; neither changes a user
    or a message. *)
Theorem get_handlers_answer_once w :
  (exists resp,
      out (step GetMessages w) = out w ++ [resp] /\
      (resp = Respond 200 (JMessages (messages w)) \/
       exists err, resp = Respond 500 (JError err))) /\
  (exists resp,
      out (step GetOnlineUsers w) = out w ++ [resp] /\
      (resp = Respond 200 (JStrings (online_usernames w)) \/
       exists err, resp = Respond 500 (JError err))) /\
  users (step GetMessages w) = users w /\
  messages (step GetMessages w) = messages w /\
  users (step GetOnlineUsers w) = users w /\
  messages (step GetOnlineUsers w) = messages w.
Proof.
  destruct w as [w_users w_messages w_sockets w_clock w_oid w_faults w_out].
  unfold_handlers. unfold online_usernames. cbn.
  destruct w_faults as [|[e|] fs]; cbn;
    (split; [eexists; split; [reflexivity|]; first [now left | right; eexists; reflexivity]|]);
    (split; [eexists; split; [reflexivity|]; first [now left | right; eexists; reflexivity]|]);
    repeat split; reflexivity.
Qed.

Section Extname.

Lemma get_in_chars s : forall i c, String.get i s = Some c -> In c (chars s).
Proof.
  induction s as [|a s IH]; intros i c H; [discriminate|].
  destruct i as [|i]; cbn in *.
  - inversion H. now left.
  - right. eapply IH. exact H.
Qed.




(** A name without a dot never gets a [startDot]. *)
Lemma scan_loop_no_dot path : forall n st,
  lacks "."%char path = true -> Path.startDot st = None ->
  Path.startDot (Path.scan_loop path n st) = None.
Proof.
  induction n as [|i IH]; intros st Hl Hs; [exact Hs|].
  cbn [Path.scan_loop]. destruct (String.get i path) as [c|] eqn:Eg; [|exact Hs].
  assert (Hc : Path.is_dot c = false).
  { apply get_in_chars in Eg. unfold lacks in Hl. rewrite forallb_forall in Hl.
    apply Hl in Eg. unfold Path.is_dot. now destruct (Ascii.eqb c "."). }
  unfold Path.scan_step. rewrite Hc.
  destruct (Path.is_slash c).
  - destruct (Path.matchedSlash st); cbn; [now apply IH | exact Hs].
  - destruct (Path.endPos st); cbn; rewrite Hs; apply IH;
      assumption || reflexivity.
Qed.

Lemma extname_no_dot path : lacks "."%char path = true -> Path.extname path = "".
Proof.
  intros H. unfold Path.extname.
  now rewrite (scan_loop_no_dot path (String.length path) Path.scan0 H eq_refl).
Qed.






End Extname.


Section Strings.

Lemma string_append_empty s : (s ++ "")%string = s.
Proof. induction s as [|a s IH]; cbn; [reflexivity | now rewrite IH]. Qed.





Lemma lacks_get c s i c' :
  lacks c s = true -> String.get i s = Some c' -> Ascii.eqb c' c = false.
Proof.
  intros Hl Hg. apply get_in_chars in Hg. unfold lacks in Hl.
  rewrite forallb_forall in Hl. apply Hl in Hg. now destruct (Ascii.eqb c' c).
Qed.





End Strings.

Section ExtnameOfName.

Variables (path : string) (L : nat).
Hypothesis Hslash : lacks "/"%char path = true.
Hypothesis Hdot : String.get L path = Some "."%char.
Hypothesis Hafter :
  forall i c, (L < i)%nat -> String.get i path = Some c -> Path.is_dot c = false.




End ExtnameOfName.

Section Extensions.



(** [POST /upload] for a part multer keeps. *)
Lemma post_upload_kept w part :
  Busboy.basename (part_filename part) <> "" ->
  out (step (PostUpload (Some part)) w) =
    out w ++ [Respond 200
                (JUpload ("/uploads/" ++ Js.number_to_string (clock w)
                            ++ Path.extname (Busboy.basename (part_filename part)))%string
                         (part_mimetype part))].
Proof.
  intros H. destruct w as [w_users w_messages w_sockets w_clock w_oid w_faults w_out].
  unfold_handlers. cbn. unfold Js.truthy.
  destruct (String.eqb_spec (Busboy.basename (part_filename part)) "") as [E|E];
    [contradiction | reflexivity].
Qed.


End Extensions.

Section Basename.

Lemma is_separator_false c :
  Busboy.is_separator c = false <->
  Ascii.eqb c "/"%char = false /\ Ascii.eqb c "\"%char = false.
Proof. unfold Busboy.is_separator. apply orb_false_iff. Qed.



(** A name without separators is its own last portion. *)
Lemma basename_loop_plain raw : forall n,
  lacks "/"%char raw = true -> lacks "\"%char raw = true ->
  Busboy.basename_loop raw n = raw.
Proof.
  induction n as [|k IH]; intros H1 H2; [reflexivity|].
  cbn [Busboy.basename_loop]. destruct (String.get k raw) as [c|] eqn:Eg; [|reflexivity].
  assert (Hs : Busboy.is_separator c = false).
  { apply is_separator_false. split; eapply lacks_get; eassumption. }
  rewrite Hs. now apply IH.
Qed.

End Basename.





(** X13: a part whose file name is not empty and holds no dot, no
    slash and no backslash is stored without an extension: the
    [fileUrl] answered is "/uploads/" followed by the clock's numeral
    and nothing else. *)
Theorem upload_without_extension w part :
  part_filename part <> "" ->
  lacks "."%char (part_filename part) = true ->
  lacks "/"%char (part_filename part) = true ->
  lacks "\"%char (part_filename part) = true ->
  out (step (PostUpload (Some part)) w) =
    out w ++ [Respond 200 (JUpload ("/uploads/" ++ Js.number_to_string (clock w))%string
                                   (part_mimetype part))].
Proof.
  intros Hne Hdot Hs Hb.
  assert (Hbase : Busboy.basename (part_filename part) = part_filename part).
  { unfold Busboy.basename. rewrite (basename_loop_plain _ _ Hs Hb).
    unfold Busboy.drop_dots.
    destruct (String.eqb_spec (part_filename part) "..") as [E|E];
      [rewrite E in Hdot; discriminate|].
    destruct (String.eqb_spec (part_filename part) ".") as [E'|E'];
      [rewrite E' in Hdot; discriminate | reflexivity]. }
  rewrite post_upload_kept by (rewrite Hbase; exact Hne).
  rewrite Hbase, (extname_no_dot _ Hdot), string_append_empty. reflexivity.
Qed.

Lemma upload_without_extension_witness :
  out (step (PostUpload (Some (mkFilePart "README" "text/plain")))
         (mkWorld [] [] [] 42 0 [] [])) =
    [Respond 200 (JUpload "/uploads/42" "text/plain")].
Proof.
  refine (upload_without_extension (mkWorld [] [] [] 42 0 [] [])
            (mkFilePart "README" "text/plain") _ eq_refl eq_refl eq_refl).
  discriminate.
Defined.

Section GeneratedName.




End GeneratedName.

